(** * Rent-vs-Buy: the year-by-year projection of [rent_vs_buy_app.py]

    A shallow embedding of the projection part of [main] (the lines that
    build the year-indexed series, before any plotting) and of the four
    [read_*] helpers, followed by the properties of the series.

    Numbers.  Python's [int] is [Z]; Python's [float] and [Decimal] are
    idealised as exact rationals [Q], compared with [==].  Rounding is
    therefore outside the model: every equation below is an equation
    between the exact values of the expressions the program evaluates.

    Series.  Every [pd.Series] of [main] carries the default index
    [0 .. n-1], so a series is the list of its values and a label is a
    position.

    Exceptions.  A computation that may raise returns a [result]. *)

From Stdlib Require Import ZArith QArith Qpower Qminmax Lia Lqa Bool.
From stdpp Require Import base list.

Local Open Scope Z_scope.
Local Open Scope Q_scope.

(** ** Exceptions and the result monad *)

Inductive exn : Type :=
| ValueError        (* numpy: negative dimensions *)
| IndexError        (* positional access out of bounds *)
| KeyError          (* label lookup on an absent label *)
| InvalidParameter  (* refusal of the loan calculator *)
| Unmodelled.       (* a series enlarged out of order; see [setitem] *)

Inductive result (A : Type) : Type :=
| Ok (a : A)
| Raise (e : exn).
Arguments Ok {A} a.
Arguments Raise {A} e.

#[global] Instance result_bind : MBind result :=
  fun A B (k : A -> result B) (m : result A) =>
    match m with
    | Ok a => k a
    | Raise e => Raise e
    end.

(** ** The numpy and pandas operations used by [main] *)

Abbreviation Series := (list Q).

(** [np.zeros(n)]: a negative dimension is refused. *)
Definition np_zeros (n : Z) : result Series :=
  if (n <? 0)%Z then Raise ValueError else Ok (replicate (Z.to_nat n) 0).

(** [np.arange(n)] and [range(n)]: empty when [n <= 0]. *)
Definition np_arange (n : Z) : list Z :=
  Z.of_nat <$> seq 0 (Z.to_nat n).

(** Python's normalisation of one bound of a slice over [len] items. *)
Definition slice_bound (len i : Z) : Z :=
  if (i <? 0)%Z then Z.max 0 (i + len) else Z.min i len.

(** [s.iloc[start:stop] = v]; [stop = None] is the open slice [start:]. *)
Definition iloc_set_slice (s : Series) (start : Z) (stop : option Z) (v : Q)
  : Series :=
  let len := Z.of_nat (length s) in
  let lo := slice_bound len start in
  let hi := match stop with
            | Some e => slice_bound len e
            | None => len
            end in
  imap (fun i x => if (lo <=? Z.of_nat i)%Z && (Z.of_nat i <? hi)%Z
                   then v else x) s.

(** [s.iloc[i] = v]: negative positions count from the end, and a
    position outside the series raises. *)
Definition iloc_set (s : Series) (i : Z) (v : Q) : result Series :=
  let len := Z.of_nat (length s) in
  let j := if (i <? 0)%Z then (i + len)%Z else i in
  if (0 <=? j)%Z && (j <? len)%Z
  then Ok (<[Z.to_nat j := v]> s)
  else Raise IndexError.

(** [s[label]] on the default index. *)
Definition getitem (s : Series) (label : Z) : result Q :=
  if (0 <=? label)%Z
  then match s !! Z.to_nat label with
       | Some x => Ok x
       | None => Raise KeyError
       end
  else Raise KeyError.

(** [s[label] = v] on the default index: an existing label is
    overwritten; the next free label enlarges the series by one.  Any
    other absent label would be appended out of order, which a list of
    values cannot express. *)
Definition setitem (s : Series) (label : Z) (v : Q) : result Series :=
  let len := Z.of_nat (length s) in
  if (0 <=? label)%Z && (label <? len)%Z then Ok (<[Z.to_nat label := v]> s)
  else if (label =? len)%Z then Ok (s ++ [v])
  else Raise Unmodelled.

(** [s.loc[s > bound] = v]. *)
Definition loc_set_gt (s : Series) (bound v : Q) : Series :=
  (fun x => if Qle_bool x bound then x else v) <$> s.

(** Arithmetic between series of one index is element by element. *)
Definition series_mul (a b : Series) : Series := zip_with Qmult a b.
Definition series_add (a b : Series) : Series := zip_with Qplus a b.
Definition series_sub (a b : Series) : Series := zip_with Qminus a b.
Definition series_scale (a : Series) (k : Q) : Series := (fun x => x * k) <$> a.

(** [s.cumprod()]. *)
Fixpoint cumprod_from (acc : Q) (s : Series) : Series :=
  match s with
  | [] => []
  | x :: rest => (acc * x) :: cumprod_from (acc * x) rest
  end.

Definition cumprod (s : Series) : Series :=
  match s with
  | [] => []
  | x :: rest => x :: cumprod_from x rest
  end.

(** ** The [mortgage] package, as far as [main] uses it

    [Loan(principal=..., interest=..., term=...)] is a class of a
    third-party package.  [main] reads [monthly_payment] and
    [schedule(n).balance] from the object; the constructor is a
    parameter of the model. *)

Record Installment : Type := { balance : Q }.

Record Loan : Type := {
  monthly_payment : Q;
  schedule : Z -> result Installment
}.

Definition LoanClass : Type := Q -> Q -> Z -> result Loan.

(** ** The sidebar: what the widgets return *)

Record Sidebar : Type := {
  sb_house_price : Z;
  sb_deposit_pct : Z;
  sb_term : Z;
  sb_home_loan_rate : Q;
  sb_strata_council_cost : Z;
  sb_home_insurance : Z;
  sb_transport_cost : Z;
  sb_weekly_rent : Z;
  sb_change_default_investment_setting : bool;
  sb_property_return : Z;
  sb_portfolio_return : Z
}.

Definition read_loan_inputs (sb : Sidebar) : Z * Q * Z * Q :=
  let house_price := sb_house_price sb in
  let deposit_pct := sb_deposit_pct sb in
  let term := sb_term sb in
  let home_loan_rate := sb_home_loan_rate sb in
  let home_loan_rate_daily_compound :=
    (1 + home_loan_rate / 100 / 365) ^ 365 - 1 in
  (house_price, inject_Z deposit_pct / 100, term,
   home_loan_rate_daily_compound).

Definition read_ownership_cost_input (sb : Sidebar) : Z * Z * Z :=
  (sb_strata_council_cost sb, sb_home_insurance sb, sb_transport_cost sb).

Definition read_rent_inputs (sb : Sidebar) : Z := sb_weekly_rent sb.

Definition read_investment_inputs (sb : Sidebar) : Q * Q :=
  (inject_Z (sb_property_return sb) / 100,
   inject_Z (sb_portfolio_return sb) / 100).

(** The bounds the widgets enforce on what they return. *)
Definition valid_sidebar (sb : Sidebar) : bool :=
  (300000 <=? sb_house_price sb)%Z && (sb_house_price sb <=? 5000000)%Z
  && (0 <=? sb_deposit_pct sb)%Z && (sb_deposit_pct sb <=? 100)%Z
  && (5 <=? sb_term sb)%Z && (sb_term sb <=? 30)%Z
  && Qle_bool 1 (sb_home_loan_rate sb) && Qle_bool (sb_home_loan_rate sb) 10
  && (0 <=? sb_strata_council_cost sb)%Z
  && (sb_strata_council_cost sb <=? 10000)%Z
  && (0 <=? sb_home_insurance sb)%Z && (sb_home_insurance sb <=? 2000)%Z
  && (0 <=? sb_transport_cost sb)%Z && (sb_transport_cost sb <=? 1000)%Z
  && (100 <=? sb_weekly_rent sb)%Z && (sb_weekly_rent sb <=? 5000)%Z
  && (0 <=? sb_property_return sb)%Z && (sb_property_return sb <=? 20)%Z
  && (0 <=? sb_portfolio_return sb)%Z && (sb_portfolio_return sb <=? 20)%Z.

(** ** [main]: the projection

    The market rates and app parameters are local constants of [main];
    [main_with] is the body of [main] with those six constants as a
    record, and [main] is [main_with] at the constants of the source. *)

Record Settings : Type := {
  inflation : Q;
  rent_inflation : Q;
  property_return : Q;
  portfolio_return : Q;
  time_frame : Z;
  max_rent : Q
}.

Definition default_settings : Settings := {|
  inflation := 2 # 100;
  rent_inflation := 3 # 100;
  property_return := 3 # 100;
  portfolio_return := 5 # 100;
  time_frame := 50;
  max_rent := 100000
|}.

(** The series [main] hands to the plots. *)
Record Projection : Type := {
  ownership_costs : Series;
  loan_payments : Series;
  rent_costs : Series;
  savings_rent_vs_buy : Series;
  balances : Series;
  asset_values_owning : Series;
  asset_values_renting : Series
}.

(** [for year in range(term): balances.iloc[year] = schedule(12*year+1).balance] *)
Fixpoint balances_loop (home_loan : Loan) (range : list Z) (balances : Series)
  : result Series :=
  match range with
  | [] => Ok balances
  | year :: rest =>
      inst ← schedule home_loan (12 * year + 1)%Z;
      balances' ← iloc_set balances year (balance inst);
      balances_loop home_loan rest balances'
  end.

(** [for year in years: asset_value = ...; asset_values_renting[year] = asset_value] *)
Fixpoint renting_loop (portfolio_return : Q) (savings : Series)
    (years : list Z) (asset_value : Q) (asset_values_renting : Series)
  : result Series :=
  match years with
  | [] => Ok asset_values_renting
  | year :: rest =>
      saved ← getitem savings year;
      let asset_value := asset_value * (1 + portfolio_return) + saved in
      renting' ← setitem asset_values_renting year asset_value;
      renting_loop portfolio_return savings rest asset_value renting'
  end.

Definition main_with (cfg : Settings) (Loan_ : LoanClass) (sb : Sidebar)
  : result Projection :=
  let inflation := inflation cfg in
  let rent_inflation := rent_inflation cfg in
  let time_frame := time_frame cfg in
  let max_rent := max_rent cfg in
  let '(house_price, deposit_pct, term, home_loan_rate) :=
    read_loan_inputs sb in
  let deposit_amt := inject_Z house_price * deposit_pct in
  home_loan ← Loan_ (inject_Z house_price - deposit_amt) home_loan_rate term;
  let '(strata_council_cost, home_insurance, transport_cost) :=
    read_ownership_cost_input sb in
  let maintenance_cost := (1 # 100) * inject_Z house_price in
  let total_ownership_cost :=
    maintenance_cost + inject_Z (strata_council_cost * 4)
    + inject_Z (home_insurance * 12) + inject_Z (transport_cost * 52) in
  let weekly_rent := read_rent_inputs sb in
  let '(property_return, portfolio_return) :=
    if sb_change_default_investment_setting sb
    then read_investment_inputs sb
    else (property_return cfg, portfolio_return cfg) in
  let years := np_arange (time_frame + 1) in
  let cumulative_inflation := (fun x => (1 + inflation) ^ x) <$> years in
  let cumulative_rent_inflation :=
    (fun x => (1 + rent_inflation) ^ x) <$> years in
  loan_payments ← np_zeros (time_frame + 1);
  let loan_payments :=
    iloc_set_slice loan_payments 1 (Some (term + 1)%Z)
                   (monthly_payment home_loan * 12) in
  loan_payments ← iloc_set loan_payments 0 deposit_amt;
  ownership_costs ← np_zeros (time_frame + 1);
  let ownership_costs :=
    iloc_set_slice ownership_costs 1 None total_ownership_cost in
  ownership_costs ← iloc_set ownership_costs 0 0;
  let ownership_costs := series_mul ownership_costs cumulative_inflation in
  rent_costs ← np_zeros (time_frame + 1);
  let rent_costs :=
    iloc_set_slice rent_costs 1 None (inject_Z (weekly_rent * 52)) in
  rent_costs ← iloc_set rent_costs 0 0;
  let rent_costs := series_mul rent_costs cumulative_rent_inflation in
  let rent_costs := loc_set_gt rent_costs max_rent max_rent in
  let savings_rent_vs_buy :=
    series_sub (series_add ownership_costs loan_payments) rent_costs in
  yearly_property_returns ← np_zeros (time_frame + 1);
  yearly_property_returns ← setitem yearly_property_returns 0 1;
  let yearly_property_returns :=
    iloc_set_slice yearly_property_returns 1 None (1 + property_return) in
  let cumulative_property_return := cumprod yearly_property_returns in
  yearly_portfolio_returns ← np_zeros (time_frame + 1);
  yearly_portfolio_returns ← setitem yearly_portfolio_returns 0 1;
  let yearly_portfolio_returns :=
    iloc_set_slice yearly_portfolio_returns 1 None (1 + portfolio_return) in
  let cumulative_portfolio_return := cumprod yearly_portfolio_returns in
  balances ← np_zeros (time_frame + 1);
  balances ← balances_loop home_loan (np_arange term) balances;
  let asset_values_owning :=
    series_sub (series_scale cumulative_property_return (inject_Z house_price))
               balances in
  asset_values_renting ← np_zeros (time_frame + 1);
  asset_values_renting ←
    renting_loop portfolio_return savings_rent_vs_buy years 0
                 asset_values_renting;
  Ok {| ownership_costs := ownership_costs;
        loan_payments := loan_payments;
        rent_costs := rent_costs;
        savings_rent_vs_buy := savings_rent_vs_buy;
        balances := balances;
        asset_values_owning := asset_values_owning;
        asset_values_renting := asset_values_renting |}.

Definition main (Loan_ : LoanClass) (sb : Sidebar) : result Projection :=
  main_with default_settings Loan_ sb.

(** ** The amortization calculator of the design document *)

(** Modelled from the spec: the [Loan] class belongs to the third-party
    [mortgage] package and is not part of the sources.  This is the
    AmortizationCalculator of section 4.1: refusal of a principal [<= 0],
    a rate [< 0] or a term [<= 0]; the fixed-rate payment formula with
    [r] the monthly rate and [n = 12 * termYears] periods, and
    [principal / n] at rate zero; the closed-form balance after [k]
    periods, defined for [0 <= k <= n]. *)
Definition monthlyPayment (principal annualRate : Q) (termYears : Z) : Q :=
  let n := (12 * termYears)%Z in
  let r := annualRate / 12 in
  if Qeq_bool annualRate 0
  then principal / inject_Z n
  else principal * r / (1 - (1 + r) ^ (- n)).

(** Modelled from the spec: the closed-form balance after [k] periods of
    section 4.1, which the [mortgage] package (not part of the sources)
    would supply; [principal] at [k = 0] and zero at [k = n]. *)
Definition balanceAfter (principal annualRate : Q) (termYears : Z) (k : Z) : Q :=
  let r := annualRate / 12 in
  let payment := monthlyPayment principal annualRate termYears in
  if Qeq_bool annualRate 0
  then principal - inject_Z k * payment
  else principal * (1 + r) ^ k - payment * (((1 + r) ^ k - 1) / r).

(** Modelled from the spec: the AmortizationSchedule of section 3, the
    object the missing [Loan] class would return: the fixed monthly
    payment and the balance after each period [0 .. n]. *)
Definition amortized (principal annualRate : Q) (termYears : Z) : Loan := {|
  monthly_payment := monthlyPayment principal annualRate termYears;
  schedule := fun k =>
    if (0 <=? k)%Z && (k <=? 12 * termYears)%Z
    then Ok {| balance := balanceAfter principal annualRate termYears k |}
    else Raise IndexError
|}.

(** Modelled from the spec: [computeSchedule] of section 4.1, standing
    for the constructor of the missing [Loan] class; it refuses a
    principal [<= 0], a rate [< 0] and a term [<= 0]. *)
Definition computeSchedule : LoanClass :=
  fun principal annualRate termYears =>
    if Qle_bool principal 0 || negb (Qle_bool 0 annualRate)
       || (termYears <=? 0)%Z
    then Raise InvalidParameter
    else Ok (amortized principal annualRate termYears).

(** ** Vocabulary of the statements *)

(** Year [y] of series [s] exists and holds the value [v]. *)
Definition at_year (s : Series) (y : Z) (v : Q) : Prop :=
  (0 <= y)%Z /\ exists x, s !! Z.to_nat y = Some x /\ x == v.

(** The loan has a row for the period read in each year of the term. *)
Definition schedule_ready (home_loan : Loan) (term : Z) : Prop :=
  forall year, (0 <= year < term)%Z ->
    exists inst, schedule home_loan (12 * year + 1)%Z = Ok inst.

(** The balance read for year [y], zero when the row is missing. *)
Definition balance_at (home_loan : Loan) (y : Z) : Q :=
  match schedule home_loan (12 * y + 1)%Z with
  | Ok inst => balance inst
  | Raise _ => 0
  end.

(** The arguments [main] hands to the loan constructor. *)
Definition deposit_amt (sb : Sidebar) : Q :=
  inject_Z (sb_house_price sb) * (inject_Z (sb_deposit_pct sb) / 100).

Definition loan_principal (sb : Sidebar) : Q :=
  inject_Z (sb_house_price sb) - deposit_amt sb.

Definition effective_rate (sb : Sidebar) : Q :=
  (1 + sb_home_loan_rate sb / 100 / 365) ^ 365 - 1.

(** The return rates in force: the defaults, or the two sliders once the
    checkbox is ticked. *)
Definition property_return_of (cfg : Settings) (sb : Sidebar) : Q :=
  if sb_change_default_investment_setting sb
  then inject_Z (sb_property_return sb) / 100
  else property_return cfg.

Definition portfolio_return_of (cfg : Settings) (sb : Sidebar) : Q :=
  if sb_change_default_investment_setting sb
  then inject_Z (sb_portfolio_return sb) / 100
  else portfolio_return cfg.

(** The conditions under which [main_with] runs to its end: the horizon
    is not negative, the loan constructor returns [home_loan] for the
    arguments [main] hands it, the term fits the series, and the loan
    has the rows the balance loop reads. *)
Definition accepted (cfg : Settings) (Loan_ : LoanClass) (sb : Sidebar)
    (home_loan : Loan) : Prop :=
  (0 <= time_frame cfg)%Z
  /\ Loan_ (loan_principal sb) (effective_rate sb) (sb_term sb) = Ok home_loan
  /\ (sb_term sb <= time_frame cfg + 1)%Z
  /\ schedule_ready home_loan (sb_term sb).

(** The series a completed run holds, as expressions of the inputs. *)
Definition total_ownership_cost (sb : Sidebar) : Q :=
  (1 # 100) * inject_Z (sb_house_price sb)
  + inject_Z (sb_strata_council_cost sb * 4)
  + inject_Z (sb_home_insurance sb * 12)
  + inject_Z (sb_transport_cost sb * 52).

Definition ownership_costs_run (cfg : Settings) (sb : Sidebar) : Series :=
  series_mul (0 :: replicate (Z.to_nat (time_frame cfg))
                             (total_ownership_cost sb))
             ((fun x => (1 + inflation cfg) ^ x)
                <$> np_arange (time_frame cfg + 1)).

Definition loan_payments_run (cfg : Settings) (sb : Sidebar)
    (home_loan : Loan) : Series :=
  <[0%nat := deposit_amt sb]>
    (iloc_set_slice (replicate (S (Z.to_nat (time_frame cfg))) 0) 1
                    (Some (sb_term sb + 1)%Z)
                    (monthly_payment home_loan * 12)).

Definition rent_costs_run (cfg : Settings) (sb : Sidebar) : Series :=
  loc_set_gt
    (series_mul (0 :: replicate (Z.to_nat (time_frame cfg))
                                (inject_Z (sb_weekly_rent sb * 52)))
                ((fun x => (1 + rent_inflation cfg) ^ x)
                   <$> np_arange (time_frame cfg + 1)))
    (max_rent cfg) (max_rent cfg).

Definition savings_run (cfg : Settings) (sb : Sidebar) (home_loan : Loan)
  : Series :=
  series_sub (series_add (ownership_costs_run cfg sb)
                         (loan_payments_run cfg sb home_loan))
             (rent_costs_run cfg sb).

Definition property_growth_run (cfg : Settings) (sb : Sidebar) : Series :=
  series_scale
    (cumprod (1 :: replicate (Z.to_nat (time_frame cfg))
                             (1 + property_return_of cfg sb)))
    (inject_Z (sb_house_price sb)).

(** All series of a projection have [n] entries. *)
Definition all_lengths (out : Projection) (n : nat) : Prop :=
  length (ownership_costs out) = n /\ length (loan_payments out) = n
  /\ length (rent_costs out) = n /\ length (savings_rent_vs_buy out) = n
  /\ length (asset_values_owning out) = n
  /\ length (asset_values_renting out) = n.

(** A sample sidebar: the default position of every widget. *)
Definition default_sidebar : Sidebar := {|
  sb_house_price := 800000;
  sb_deposit_pct := 10;
  sb_term := 30;
  sb_home_loan_rate := 279 # 100;
  sb_strata_council_cost := 1500;
  sb_home_insurance := 60;
  sb_transport_cost := 200;
  sb_weekly_rent := 690;
  sb_change_default_investment_setting := false;
  sb_property_return := 3;
  sb_portfolio_return := 5
|}.

(** The domain the design document states for the inputs: a deposit
    fraction in [[0, 1]], a positive horizon, no negative rate, a
    positive principal and a positive term. *)
Definition in_stated_domain (cfg : Settings) (sb : Sidebar) : bool :=
  Qle_bool 0 (inject_Z (sb_deposit_pct sb) / 100)
  && Qle_bool (inject_Z (sb_deposit_pct sb) / 100) 1
  && (0 <? time_frame cfg)%Z
  && Qle_bool 0 (inflation cfg) && Qle_bool 0 (rent_inflation cfg)
  && Qle_bool 0 (property_return_of cfg sb)
  && Qle_bool 0 (portfolio_return_of cfg sb)
  && Qle_bool 0 (sb_home_loan_rate sb)
  && negb (Qle_bool (loan_principal sb) 0)
  && (0 <? sb_term sb)%Z.

(** The loan the calculator grants for the sample sidebar. *)
Definition default_loan : Loan :=
  amortized (loan_principal default_sidebar) (effective_rate default_sidebar)
            (sb_term default_sidebar).

(** The sample sidebar with a deposit of minus ten percent. *)
Definition negative_deposit_sidebar : Sidebar := {|
  sb_house_price := 800000;
  sb_deposit_pct := -10;
  sb_term := 30;
  sb_home_loan_rate := 279 # 100;
  sb_strata_council_cost := 1500;
  sb_home_insurance := 60;
  sb_transport_cost := 200;
  sb_weekly_rent := 690;
  sb_change_default_investment_setting := false;
  sb_property_return := 3;
  sb_portfolio_return := 5
|}.

(** The sample sidebar with all of the price paid as deposit. *)
Definition full_deposit_sidebar : Sidebar := {|
  sb_house_price := 800000;
  sb_deposit_pct := 100;
  sb_term := 30;
  sb_home_loan_rate := 279 # 100;
  sb_strata_council_cost := 1500;
  sb_home_insurance := 60;
  sb_transport_cost := 200;
  sb_weekly_rent := 690;
  sb_change_default_investment_setting := false;
  sb_property_return := 3;
  sb_portfolio_return := 5
|}.

(** Settings with a horizon of three years, shorter than any loan term
    the sidebar offers. *)
Definition short_settings : Settings := {|
  inflation := 2 # 100;
  rent_inflation := 3 # 100;
  property_return := 3 # 100;
  portfolio_return := 5 # 100;
  time_frame := 3;
  max_rent := 100000
|}.

(** A loan class that refuses every interest rate but the one given. *)
Definition only_at_rate (rate : Q) (Loan_ : LoanClass) : LoanClass :=
  fun principal interest term =>
    if Qeq_bool interest rate
    then Loan_ principal interest term
    else Raise InvalidParameter.

(** ** The figures of the report

    After the series are built, [main] computes two figures from them
    for the text of the page: the last year in which owning costs more
    than renting, and the difference in wealth at the end of the
    horizon.  The plots, the tables and the strings around the figures
    are not modelled. *)

(** [l[i]] on a sequence, as in [index[-1]] and [s.iloc[-1]]: a negative
    position counts from the end, a position outside raises. *)
Definition py_getitem {A : Type} (l : list A) (i : Z) : result A :=
  let len := Z.of_nat (length l) in
  let j := if (i <? 0)%Z then (i + len)%Z else i in
  if (0 <=? j)%Z && (j <? len)%Z
  then match l !! Z.to_nat j with
       | Some x => Ok x
       | None => Raise IndexError
       end
  else Raise IndexError.

(** [s[s > 0].index] on the default index, counting labels from
    [label]. *)
Fixpoint positive_labels_from (label : Z) (s : Series) : list Z :=
  match s with
  | [] => []
  | x :: rest =>
      if Qle_bool x 0
      then positive_labels_from (label + 1) rest
      else label :: positive_labels_from (label + 1) rest
  end.

Definition positive_labels (s : Series) : list Z := positive_labels_from 0 s.

(** [years_with_savings = savings_rent_vs_buy[savings_rent_vs_buy > 0].index]
    and the figure [years_with_savings[-1]]. *)
Definition years_with_savings (out : Projection) : list Z :=
  positive_labels (savings_rent_vs_buy out).

Definition last_year_with_savings (out : Projection) : result Z :=
  py_getitem (years_with_savings out) (-1).

(** [asset_values_owning.iloc[-1] - asset_values_renting.iloc[-1]]. *)
Definition wealth_difference (out : Projection) : result Q :=
  owning ← py_getitem (asset_values_owning out) (-1);
  renting ← py_getitem (asset_values_renting out) (-1);
  Ok (owning - renting).

(** The projection followed by the two figures, in the order of the
    page. *)
Definition report_with (cfg : Settings) (Loan_ : LoanClass) (sb : Sidebar)
  : result (Z * Q) :=
  out ← main_with cfg Loan_ sb;
  years ← last_year_with_savings out;
  difference ← wealth_difference out;
  Ok (years, difference).

Definition report (Loan_ : LoanClass) (sb : Sidebar) : result (Z * Q) :=
  report_with default_settings Loan_ sb.

(** [f 0 + f 1 + ... + f n]. *)
Fixpoint sum_upto (f : nat -> Q) (n : nat) : Q :=
  match n with
  | O => f O
  | S m => sum_upto f m + f (S m)
  end.

(** The entry of year [k], zero beyond the series. *)
Definition entry (s : Series) (k : nat) : Q := default 0 (s !! k).

(** The sum of the entries of a series. *)
Definition series_total (s : Series) : Q := foldr Qplus 0 s.

(** A loan class that lends free of interest whatever rate it is asked
    for, through the calculator of the design document. *)
Definition interest_free : LoanClass :=
  fun principal _ term => computeSchedule principal 0 term.

(** A sidebar within the bounds of the widgets: the cheapest house, no
    deposit, no recurring cost, the dearest rent. *)
Definition dear_rent_sidebar : Sidebar := {|
  sb_house_price := 300000;
  sb_deposit_pct := 0;
  sb_term := 30;
  sb_home_loan_rate := 1;
  sb_strata_council_cost := 0;
  sb_home_insurance := 0;
  sb_transport_cost := 0;
  sb_weekly_rent := 5000;
  sb_change_default_investment_setting := false;
  sb_property_return := 3;
  sb_portfolio_return := 5
|}.

(** A projection whose expense differences are positive in the years 0
    and 2 only. *)
Definition sample_projection : Projection := {|
  ownership_costs := [0; 10; 11; 12];
  loan_payments := [5; 0; 0; 0];
  rent_costs := [0; 11; 8; 14];
  savings_rent_vs_buy := [5; -1; 3; -2];
  balances := [0; 0; 0; 0];
  asset_values_owning := [100; 103; 106; 109];
  asset_values_renting := [5; 4; 7; 5]
|}.

(** * Properties *)

(** ** The library operations *)

Lemma result_bind_Ok {A B : Type} (a : A) (k : A -> result B) :
  (Ok a ≫= k) = k a.
Proof. reflexivity. Qed.

Lemma result_bind_Raise {A B : Type} (e : exn) (k : A -> result B) :
  (Raise e ≫= k) = Raise e.
Proof. reflexivity. Qed.

Lemma np_zeros_Ok (n : Z) :
  (0 <= n)%Z -> np_zeros n = Ok (replicate (Z.to_nat n) 0).
Proof.
  intros Hn. unfold np_zeros.
  destruct (Z.ltb_spec n 0); [lia | reflexivity].
Qed.

Lemma length_np_arange (n : Z) : length (np_arange n) = Z.to_nat n.
Proof. unfold np_arange. by rewrite length_fmap, length_seq. Qed.

Lemma lookup_np_arange (n : Z) (i : nat) :
  (i < Z.to_nat n)%nat -> np_arange n !! i = Some (Z.of_nat i).
Proof.
  intros Hi. unfold np_arange.
  rewrite list_lookup_fmap, lookup_seq_lt by done. reflexivity.
Qed.

Lemma length_iloc_set_slice (s : Series) start stop v :
  length (iloc_set_slice s start stop v) = length s.
Proof. unfold iloc_set_slice. apply length_imap. Qed.

Lemma iloc_set_slice_tail (x v : Q) (n : nat) :
  iloc_set_slice (x :: replicate n 0) 1 None v = x :: replicate n v.
Proof.
  apply list_eq. intros i. unfold iloc_set_slice.
  rewrite list_lookup_imap. cbn [length].
  rewrite length_replicate.
  replace (slice_bound (Z.of_nat (S n)) 1) with 1%Z
    by (unfold slice_bound; cbn [Z.ltb Z.compare]; lia).
  destruct i as [|i].
  - reflexivity.
  - change ((x :: replicate n 0) !! S i) with (replicate n 0 !! i).
    change ((x :: replicate n v) !! S i) with (replicate n v !! i).
    destruct (decide (i < n)%nat) as [Hi|Hi].
    + rewrite !lookup_replicate_2 by done. cbn [fmap option_fmap option_map].
      destruct (Z.leb_spec 1 (Z.of_nat (S i))); [|lia].
      destruct (Z.ltb_spec (Z.of_nat (S i)) (Z.of_nat (S n))); [|lia].
      reflexivity.
    + rewrite !(proj1 (lookup_replicate_None _ _ _)) by lia. reflexivity.
Qed.

Lemma iloc_set_slice_open (v : Q) (n : nat) :
  iloc_set_slice (replicate (S n) 0) 1 None v = 0 :: replicate n v.
Proof. apply (iloc_set_slice_tail 0 v n). Qed.

Lemma insert_zeros_head (x : Q) (n : nat) :
  <[0%nat := x]> (replicate (S n) 0) = x :: replicate n 0.
Proof. reflexivity. Qed.

Lemma iloc_set_slice_payments (v : Q) (n : nat) (term : Z) (i : nat) :
  (0 <= term)%Z ->
  iloc_set_slice (replicate n 0) 1 (Some (term + 1)%Z) v !! i =
  if decide (i < n)%nat
  then Some (if decide (1 <= Z.of_nat i <= term)%Z then v else 0)
  else None.
Proof.
  intros Hterm.
  unfold iloc_set_slice. rewrite list_lookup_imap, length_replicate.
  destruct (decide (i < n)%nat) as [Hi|Hi].
  - rewrite lookup_replicate_2 by done. cbn -[Z.of_nat]. f_equal.
    unfold slice_bound.
    destruct (Z.ltb_spec (term + 1) 0); [lia|].
    destruct (Z.ltb_spec 1 0); [lia|].
    repeat match goal with
           | |- context [(?a <? ?b)%Z] => destruct (Z.ltb_spec a b)
           | |- context [(?a <=? ?b)%Z] => destruct (Z.leb_spec a b)
           end;
      cbn [andb]; destruct (decide _); first [reflexivity | lia].
  - rewrite (proj1 (lookup_replicate_None _ _ _)) by lia. reflexivity.
Qed.

Lemma iloc_set_nat (s : Series) (i : nat) (v : Q) :
  (i < length s)%nat -> iloc_set s (Z.of_nat i) v = Ok (<[i := v]> s).
Proof.
  intros Hi. unfold iloc_set.
  destruct (Z.ltb_spec (Z.of_nat i) 0); [lia|].
  destruct (Z.leb_spec 0 (Z.of_nat i)); [|lia].
  destruct (Z.ltb_spec (Z.of_nat i) (Z.of_nat (length s))); [|lia].
  cbn [andb]. by rewrite Nat2Z.id.
Qed.

Lemma iloc_set_beyond (s : Series) (i : nat) (v : Q) :
  (length s <= i)%nat -> iloc_set s (Z.of_nat i) v = Raise IndexError.
Proof.
  intros Hi. unfold iloc_set.
  destruct (Z.ltb_spec (Z.of_nat i) 0); [lia|].
  destruct (Z.ltb_spec (Z.of_nat i) (Z.of_nat (length s))); [lia|].
  by rewrite andb_false_r.
Qed.

Lemma setitem_nat (s : Series) (i : nat) (v : Q) :
  (i < length s)%nat -> setitem s (Z.of_nat i) v = Ok (<[i := v]> s).
Proof.
  intros Hi. unfold setitem.
  destruct (Z.leb_spec 0 (Z.of_nat i)); [|lia].
  destruct (Z.ltb_spec (Z.of_nat i) (Z.of_nat (length s))); [|lia].
  cbn [andb]. by rewrite Nat2Z.id.
Qed.

Lemma getitem_nat (s : Series) (i : nat) (x : Q) :
  s !! i = Some x -> getitem s (Z.of_nat i) = Ok x.
Proof.
  intros Hx. unfold getitem.
  destruct (Z.leb_spec 0 (Z.of_nat i)); [|lia].
  by rewrite Nat2Z.id, Hx.
Qed.

Lemma Qpower_succ (a : Q) (n : Z) : (0 <= n)%Z -> a ^ (n + 1) == a ^ n * a.
Proof.
  intros Hn. rewrite Qpower_plus' by lia. by rewrite Qpower_1_r.
Qed.

Lemma cumprod_from_replicate (f : Q) (n : nat) :
  forall (acc : Q) (i : nat), (i < n)%nat ->
    exists x, cumprod_from acc (replicate n f) !! i = Some x
              /\ x == acc * f ^ Z.of_nat (S i).
Proof.
  induction n as [|n IH]; intros acc i Hi; [lia|].
  destruct i as [|i].
  - exists (acc * f). split; [reflexivity|].
    change (Z.of_nat 1) with 1%Z. by rewrite Qpower_1_r.
  - destruct (IH (acc * f) i) as (x & Hx & Hv); [lia|].
    exists x. split; [exact Hx|].
    rewrite Hv. rewrite (Nat2Z.inj_succ (S i)), <- Z.add_1_r.
    rewrite (Qpower_succ f (Z.of_nat (S i))) by lia. ring.
Qed.

Lemma cumprod_returns (f : Q) (n i : nat) :
  (i < S n)%nat ->
  exists x, cumprod (1 :: replicate n f) !! i = Some x /\ x == f ^ Z.of_nat i.
Proof.
  intros Hi. destruct i as [|i].
  - exists 1. split; reflexivity.
  - destruct (cumprod_from_replicate f n 1 i) as (x & Hx & Hv); [lia|].
    exists x. split; [exact Hx|]. rewrite Hv. ring.
Qed.

Lemma length_cumprod_from (s : Series) :
  forall acc, length (cumprod_from acc s) = length s.
Proof. induction s as [|x s IH]; intros acc; cbn; [done|]. by rewrite IH. Qed.

Lemma length_cumprod (s : Series) : length (cumprod s) = length s.
Proof. destruct s; cbn; [done|]. by rewrite length_cumprod_from. Qed.

(** ** The two loops of [main] *)

Lemma balance_at_Ok (home_loan : Loan) (y : Z) (inst : Installment) :
  schedule home_loan (12 * y + 1)%Z = Ok inst ->
  balance_at home_loan y = balance inst.
Proof. intros H. unfold balance_at. by rewrite H. Qed.

Lemma balances_loop_Ok (home_loan : Loan) (k : nat) :
  forall (a : nat) (b : Series),
    (a + k <= length b)%nat ->
    (forall i, (a <= i < a + k)%nat ->
       exists inst, schedule home_loan (12 * Z.of_nat i + 1)%Z = Ok inst) ->
    exists b',
      balances_loop home_loan (Z.of_nat <$> seq a k) b = Ok b'
      /\ length b' = length b
      /\ forall i, b' !! i =
           if decide (a <= i < a + k)%nat
           then Some (balance_at home_loan (Z.of_nat i))
           else b !! i.
Proof.
  induction k as [|k IH]; intros a b Hlen Hrows.
  - exists b. repeat split. intros i. destruct (decide _); [lia | done].
  - destruct (Hrows a) as [inst Hinst]; [lia|].
    cbn [seq fmap list_fmap balances_loop]. rewrite Hinst, result_bind_Ok.
    rewrite iloc_set_nat, result_bind_Ok by lia.
    destruct (IH (S a) (<[a := balance inst]> b)) as (b' & Hrun & Hl & Hb').
    { rewrite length_insert. lia. }
    { intros i Hi. apply Hrows. lia. }
    exists b'. split; [exact Hrun|]. split.
    { by rewrite Hl, length_insert. }
    intros i. rewrite Hb'.
    destruct (decide (S a <= i < S a + k)%nat).
    + destruct (decide _); [done | lia].
    + destruct (decide (a = i)) as [<-|Hne].
      * rewrite list_lookup_insert_eq by lia.
        destruct (decide _); [|lia].
        by rewrite (balance_at_Ok _ _ _ Hinst).
      * rewrite list_lookup_insert_ne by done.
        destruct (decide _); [lia | done].
Qed.

Lemma balances_loop_IndexError (home_loan : Loan) (k : nat) :
  forall (a : nat) (b : Series),
    (a <= length b < a + k)%nat ->
    (forall i, (a <= i <= length b)%nat ->
       exists inst, schedule home_loan (12 * Z.of_nat i + 1)%Z = Ok inst) ->
    balances_loop home_loan (Z.of_nat <$> seq a k) b = Raise IndexError.
Proof.
  induction k as [|k IH]; intros a b Hlen Hrows; [lia|].
  destruct (Hrows a) as [inst Hinst]; [lia|].
  cbn [seq fmap list_fmap balances_loop]. rewrite Hinst, result_bind_Ok.
  destruct (decide (a = length b)) as [Ha|Ha].
  - by rewrite iloc_set_beyond by lia.
  - rewrite iloc_set_nat, result_bind_Ok by lia.
    apply IH.
    + rewrite length_insert. lia.
    + intros i Hi. apply Hrows. rewrite length_insert in Hi. lia.
Qed.

Lemma balances_loop_outcome (home_loan : Loan) (range : list Z) :
  forall b : Series,
    (exists b', balances_loop home_loan range b = Ok b'
                /\ length b' = length b)
    \/ balances_loop home_loan range b = Raise IndexError
    \/ (exists k e, schedule home_loan k = Raise e
                    /\ balances_loop home_loan range b = Raise e).
Proof.
  induction range as [|year rest IH]; intros b.
  - left. by exists b.
  - cbn [balances_loop].
    destruct (schedule home_loan (12 * year + 1)) as [inst|e] eqn:Hrow.
    2:{ right. right. by exists (12 * year + 1)%Z, e. }
    rewrite result_bind_Ok. unfold iloc_set.
    destruct (_ && _); [|by right; left].
    rewrite result_bind_Ok.
    destruct (IH (<[Z.to_nat (if (year <? 0)%Z
                              then (year + Z.of_nat (length b))%Z
                              else year) := balance inst]> b))
      as [(b' & Hrun & Hlen) | [Hrun | Hrun]].
    + left. exists b'. split; [exact Hrun|]. by rewrite Hlen, length_insert.
    + by right; left.
    + by right; right.
Qed.

Lemma renting_loop_Ok (pr : Q) (savings : Series) (k : nat) :
  forall (a : nat) (asset_value : Q) (r : Series),
    (a + k <= length r)%nat ->
    (a + k <= length savings)%nat ->
    exists r',
      renting_loop pr savings (Z.of_nat <$> seq a k) asset_value r = Ok r'
      /\ length r' = length r
      /\ (forall i, (i < a)%nat -> r' !! i = r !! i)
      /\ ((0 < k)%nat ->
          exists s, savings !! a = Some s
                    /\ r' !! a = Some (asset_value * (1 + pr) + s))
      /\ (forall i, (a <= i)%nat -> (S i < a + k)%nat ->
            exists x s, r' !! i = Some x /\ savings !! S i = Some s
                        /\ r' !! S i = Some (x * (1 + pr) + s)).
Proof.
  induction k as [|k IH]; intros a av r Hr Hs.
  - exists r. repeat split; intros; lia.
  - destruct (lookup_lt_is_Some_2 savings a) as [s Hsa]; [lia|].
    cbn [seq fmap list_fmap renting_loop].
    rewrite (getitem_nat _ _ _ Hsa), result_bind_Ok.
    rewrite setitem_nat, result_bind_Ok by lia.
    destruct (IH (S a) (av * (1 + pr) + s) (<[a := av * (1 + pr) + s]> r))
      as (r' & Hrun & Hl & Hbelow & Hfirst & Hrec).
    { rewrite length_insert. lia. }
    { lia. }
    assert (Ha : r' !! a = Some (av * (1 + pr) + s)).
    { rewrite Hbelow by lia. apply list_lookup_insert_eq. lia. }
    exists r'. split; [exact Hrun|]. split.
    { by rewrite Hl, length_insert. }
    split.
    { intros i Hi. rewrite Hbelow by lia.
      apply list_lookup_insert_ne. lia. }
    split.
    { intros _. by exists s. }
    intros i Hai Hik. destruct (decide (i = a)) as [->|Hne].
    + destruct Hfirst as (s' & Hs' & Hr'); [lia|].
      exists (av * (1 + pr) + s), s'. by repeat split.
    + apply Hrec; lia.
Qed.

(** ** One run of [main_with] *)

(** Once the loan is granted and the horizon is not negative, every step
    before the two loops succeeds; what is left of the run is the two
    loops. *)
Lemma main_with_granted (cfg : Settings) (Loan_ : LoanClass) (sb : Sidebar)
    (home_loan : Loan) :
  (0 <= time_frame cfg)%Z ->
  Loan_ (loan_principal sb) (effective_rate sb) (sb_term sb) = Ok home_loan ->
  main_with cfg Loan_ sb =
    bal ← balances_loop home_loan (np_arange (sb_term sb))
            (replicate (S (Z.to_nat (time_frame cfg))) 0);
    renting ← renting_loop (portfolio_return_of cfg sb)
                (savings_run cfg sb home_loan)
                (np_arange (time_frame cfg + 1)) 0
                (replicate (S (Z.to_nat (time_frame cfg))) 0);
    Ok {| ownership_costs := ownership_costs_run cfg sb;
          loan_payments := loan_payments_run cfg sb home_loan;
          rent_costs := rent_costs_run cfg sb;
          savings_rent_vs_buy := savings_run cfg sb home_loan;
          balances := bal;
          asset_values_owning := series_sub (property_growth_run cfg sb) bal;
          asset_values_renting := renting |}.
Proof.
  intros Hframe Hloan.
  assert (Hn : Z.to_nat (time_frame cfg + 1) = S (Z.to_nat (time_frame cfg)))
    by lia.
  unfold loan_principal, deposit_amt, effective_rate in Hloan.
  unfold savings_run, ownership_costs_run, loan_payments_run,
    rent_costs_run, property_growth_run, total_ownership_cost,
    deposit_amt, property_return_of, portfolio_return_of.
  cbv beta iota zeta delta
    [main_with read_loan_inputs read_ownership_cost_input
     read_rent_inputs read_investment_inputs].
  rewrite Hloan, result_bind_Ok.
  destruct (sb_change_default_investment_setting sb); cbv beta iota;
    rewrite !(np_zeros_Ok (time_frame cfg + 1)) by lia;
    rewrite Hn;
    repeat first
      [ rewrite result_bind_Ok
      | rewrite (iloc_set_nat _ 0)
          by (rewrite length_iloc_set_slice, length_replicate; lia)
      | rewrite (setitem_nat _ 0) by (rewrite length_replicate; lia) ];
    rewrite ?insert_zeros_head, ?iloc_set_slice_open, ?iloc_set_slice_tail;
    cbn [insert list_insert];
    reflexivity.
Qed.

Lemma accepted_run (cfg : Settings) (Loan_ : LoanClass) (sb : Sidebar)
    (home_loan : Loan) :
  accepted cfg Loan_ sb home_loan ->
  exists bal renting : Series,
    main_with cfg Loan_ sb =
      Ok {| ownership_costs := ownership_costs_run cfg sb;
            loan_payments := loan_payments_run cfg sb home_loan;
            rent_costs := rent_costs_run cfg sb;
            savings_rent_vs_buy := savings_run cfg sb home_loan;
            balances := bal;
            asset_values_owning :=
              series_sub (property_growth_run cfg sb) bal;
            asset_values_renting := renting |}
    /\ length bal = S (Z.to_nat (time_frame cfg))
    /\ (forall i, bal !! i =
          if decide (Z.of_nat i < sb_term sb)%Z
          then Some (balance_at home_loan (Z.of_nat i))
          else replicate (S (Z.to_nat (time_frame cfg))) 0 !! i)
    /\ length renting = S (Z.to_nat (time_frame cfg))
    /\ (exists s, savings_run cfg sb home_loan !! 0%nat = Some s
                  /\ renting !! 0%nat
                     = Some (0 * (1 + portfolio_return_of cfg sb) + s))
    /\ (forall i, (S i < S (Z.to_nat (time_frame cfg)))%nat ->
          exists x s, renting !! i = Some x
            /\ savings_run cfg sb home_loan !! S i = Some s
            /\ renting !! S i
               = Some (x * (1 + portfolio_return_of cfg sb) + s)).
Proof.
  intros (Hframe & Hloan & Hterm & Hrows).
  set (n := Z.to_nat (time_frame cfg)).
  assert (Hn : Z.to_nat (time_frame cfg + 1) = S n) by (subst n; lia).
  assert (Hlen_sav : length (savings_run cfg sb home_loan) = S n).
  { unfold savings_run, series_sub, series_add, ownership_costs_run,
      loan_payments_run, rent_costs_run, loc_set_gt, series_mul.
    rewrite !length_zip_with, !length_fmap, !length_zip_with, !length_fmap,
      length_insert, length_iloc_set_slice, length_np_arange, Hn.
    cbn [length]. rewrite !length_replicate. lia. }
  destruct (balances_loop_Ok home_loan (Z.to_nat (sb_term sb)) 0
              (replicate (S n) 0))
    as (bal & Hbal & Hbal_len & Hbal_at).
  { rewrite length_replicate. lia. }
  { intros i Hi. apply Hrows. lia. }
  destruct (renting_loop_Ok (portfolio_return_of cfg sb)
              (savings_run cfg sb home_loan) (S n) 0 0 (replicate (S n) 0))
    as (renting & Hrent & Hrent_len & _ & Hfirst & Hrec).
  { rewrite length_replicate. lia. }
  { lia. }
  change (Z.of_nat <$> seq 0 (Z.to_nat (sb_term sb)))
    with (np_arange (sb_term sb)) in Hbal.
  replace (Z.of_nat <$> seq 0 (S n))
    with (np_arange (time_frame cfg + 1)) in Hrent
    by (unfold np_arange; by rewrite Hn).
  subst n.
  exists bal, renting. split; [|split; [|split; [|split; [|split]]]].
  - rewrite (main_with_granted cfg Loan_ sb home_loan Hframe Hloan).
    by rewrite Hbal, result_bind_Ok, Hrent, result_bind_Ok.
  - by rewrite Hbal_len, length_replicate.
  - intros i. rewrite Hbal_at.
    destruct (decide (0 <= i < 0 + Z.to_nat (sb_term sb))%nat);
      destruct (decide (Z.of_nat i < sb_term sb)%Z); first [done | lia].
  - by rewrite Hrent_len, length_replicate.
  - destruct Hfirst as (s & Hs & Hr); [lia|]. by exists s.
  - intros i Hi. apply Hrec; lia.
Qed.

(** A run whose term overshoots the series stops in the balance loop. *)
Lemma main_with_IndexError (cfg : Settings) (Loan_ : LoanClass) (sb : Sidebar)
    (home_loan : Loan) :
  (0 <= time_frame cfg)%Z ->
  Loan_ (loan_principal sb) (effective_rate sb) (sb_term sb) = Ok home_loan ->
  (time_frame cfg + 1 < sb_term sb)%Z ->
  schedule_ready home_loan (sb_term sb) ->
  main_with cfg Loan_ sb = Raise IndexError.
Proof.
  intros Hframe Hloan Hterm Hrows.
  rewrite (main_with_granted cfg Loan_ sb home_loan Hframe Hloan).
  unfold np_arange. rewrite balances_loop_IndexError; [reflexivity| |].
  - rewrite length_replicate. lia.
  - intros i Hi. rewrite length_replicate in Hi. apply Hrows. lia.
Qed.

(** A refusal of the loan constructor is the outcome of the run. *)
Lemma main_with_refused (cfg : Settings) (Loan_ : LoanClass) (sb : Sidebar)
    (e : exn) :
  Loan_ (loan_principal sb) (effective_rate sb) (sb_term sb) = Raise e ->
  main_with cfg Loan_ sb = Raise e.
Proof.
  intros Hloan. unfold loan_principal, deposit_amt, effective_rate in Hloan.
  cbv beta iota zeta delta [main_with read_loan_inputs].
  by rewrite Hloan.
Qed.

(** ** The calculator of the design document *)

Lemma computeSchedule_accepts (principal annualRate : Q) (termYears : Z) :
  0 < principal -> 0 <= annualRate -> (0 < termYears)%Z ->
  computeSchedule principal annualRate termYears
  = Ok (amortized principal annualRate termYears).
Proof.
  intros Hp Hr Ht. unfold computeSchedule.
  destruct (Qle_bool principal 0) eqn:E1.
  { apply Qle_bool_iff in E1. lra. }
  destruct (Qle_bool 0 annualRate) eqn:E2.
  2:{ apply Qle_bool_iff in Hr. congruence. }
  destruct (Z.leb_spec termYears 0); [lia | reflexivity].
Qed.

Lemma computeSchedule_refuses (principal annualRate : Q) (termYears : Z) :
  principal <= 0 \/ annualRate < 0 \/ (termYears <= 0)%Z ->
  computeSchedule principal annualRate termYears = Raise InvalidParameter.
Proof.
  intros H. unfold computeSchedule.
  destruct (Qle_bool principal 0) eqn:E1; [reflexivity|].
  destruct (Qle_bool 0 annualRate) eqn:E2; [|reflexivity].
  destruct (Z.leb_spec termYears 0); [reflexivity|].
  exfalso. destruct H as [H | [H | H]].
  - apply Qle_bool_iff in H. congruence.
  - apply Qle_bool_iff in E2. lra.
  - lia.
Qed.

Lemma computeSchedule_cases (principal annualRate : Q) (termYears : Z) :
  (computeSchedule principal annualRate termYears = Raise InvalidParameter
   /\ (principal <= 0 \/ annualRate < 0 \/ (termYears <= 0)%Z))
  \/ (computeSchedule principal annualRate termYears
      = Ok (amortized principal annualRate termYears)
      /\ 0 < principal /\ 0 <= annualRate /\ (0 < termYears)%Z).
Proof.
  unfold computeSchedule.
  destruct (Qle_bool principal 0) eqn:E1.
  { left. split; [reflexivity|]. left. by apply Qle_bool_iff. }
  assert (Hp : 0 < principal).
  { apply Qnot_le_lt. intros Hle. apply Qle_bool_iff in Hle. congruence. }
  destruct (Qle_bool 0 annualRate) eqn:E2.
  2:{ left. split; [reflexivity|]. right. left.
      apply Qnot_le_lt. intros Hle. apply Qle_bool_iff in Hle. congruence. }
  apply Qle_bool_iff in E2.
  destruct (Z.leb_spec termYears 0).
  - left. split; [reflexivity|]. by right; right.
  - right. by repeat split.
Qed.

Lemma amortized_rows (principal annualRate : Q) (termYears k : Z) (e : exn) :
  schedule (amortized principal annualRate termYears) k = Raise e ->
  e = IndexError.
Proof.
  cbn [schedule amortized]. destruct (_ && _); [discriminate|]. congruence.
Qed.

Lemma amortized_ready (principal annualRate : Q) (termYears : Z) :
  schedule_ready (amortized principal annualRate termYears) termYears.
Proof.
  intros year Hyear. cbn [schedule amortized].
  destruct (Z.leb_spec 0 (12 * year + 1)); [|lia].
  destruct (Z.leb_spec (12 * year + 1) (12 * termYears)); [|lia].
  eexists. reflexivity.
Qed.

Lemma effective_rate_nonneg (sb : Sidebar) :
  0 <= sb_home_loan_rate sb -> 0 <= effective_rate sb.
Proof.
  intros Hr. unfold effective_rate.
  assert (H1 : 1 <= 1 + sb_home_loan_rate sb / 100 / 365).
  { assert (H0 : 0 <= sb_home_loan_rate sb / 100 / 365); [|lra].
    unfold Qdiv. rewrite <- Qmult_assoc.
    apply Qmult_le_0_compat; [exact Hr | by vm_compute]. }
  pose proof (Qpower_1_le _ 365 H1 ltac:(lia)). lra.
Qed.

(** Within the widget bounds, and short of a deposit of the whole price,
    the calculator grants the loan and the run goes through. *)
Lemma valid_sidebar_accepted (sb : Sidebar) :
  valid_sidebar sb = true ->
  (sb_deposit_pct sb < 100)%Z ->
  accepted default_settings computeSchedule sb
    (amortized (loan_principal sb) (effective_rate sb) (sb_term sb)).
Proof.
  intros Hv Hdep. unfold valid_sidebar in Hv.
  repeat (apply andb_prop in Hv; destruct Hv as [Hv ?]).
  repeat match goal with
         | H : (_ <=? _)%Z = true |- _ => apply Z.leb_le in H
         | H : Qle_bool _ _ = true |- _ => apply Qle_bool_iff in H
         end.
  unfold accepted. cbn [time_frame default_settings].
  split; [lia|]. split; [|split; [lia | apply amortized_ready]].
  apply computeSchedule_accepts; [| |lia].
  - unfold loan_principal, deposit_amt.
    assert (Hp : 0 < inject_Z (sb_house_price sb))
      by (change 0 with (inject_Z 0); rewrite <- Zlt_Qlt; lia).
    assert (Hd : inject_Z (sb_deposit_pct sb) < 100)
      by (change 100 with (inject_Z 100); rewrite <- Zlt_Qlt; lia).
    assert (Hx : inject_Z (sb_deposit_pct sb) / 100 < 1)
      by (apply Qlt_shift_div_r; lra).
    assert (Hprod : 0 < inject_Z (sb_house_price sb)
                        * (1 - inject_Z (sb_deposit_pct sb) / 100))
      by (apply Qmult_lt_0_compat; lra).
    lra.
  - apply effective_rate_nonneg. lra.
Qed.

(** ** Reading the series of a run *)

Lemma lookup_inflated (v r : Q) (tf : Z) (i : nat) :
  (0 <= tf)%Z -> (i <= Z.to_nat tf)%nat ->
  series_mul (0 :: replicate (Z.to_nat tf) v)
             ((fun x => (1 + r) ^ x) <$> np_arange (tf + 1)) !! i
  = Some (match i with O => 0 | S _ => v end * (1 + r) ^ Z.of_nat i).
Proof.
  intros Htf Hi. unfold series_mul.
  rewrite lookup_zip_with, list_lookup_fmap, lookup_np_arange by lia.
  destruct i as [|i]; [reflexivity|].
  change ((0 :: replicate (Z.to_nat tf) v) !! S i)
    with (replicate (Z.to_nat tf) v !! i).
  rewrite lookup_replicate_2 by lia. reflexivity.
Qed.

Lemma length_inflated (v r : Q) (tf : Z) :
  (0 <= tf)%Z ->
  length (series_mul (0 :: replicate (Z.to_nat tf) v)
            ((fun x => (1 + r) ^ x) <$> np_arange (tf + 1)))
  = S (Z.to_nat tf).
Proof.
  intros Htf. unfold series_mul.
  rewrite length_zip_with, length_fmap, length_np_arange. cbn [length].
  rewrite length_replicate. lia.
Qed.

Lemma lookup_ownership_costs (cfg : Settings) (sb : Sidebar) (i : nat) :
  (0 <= time_frame cfg)%Z -> (i <= Z.to_nat (time_frame cfg))%nat ->
  ownership_costs_run cfg sb !! i
  = Some (match i with O => 0 | S _ => total_ownership_cost sb end
          * (1 + inflation cfg) ^ Z.of_nat i).
Proof. apply lookup_inflated. Qed.

Lemma lookup_rent_costs (cfg : Settings) (sb : Sidebar) (i : nat) :
  (0 <= time_frame cfg)%Z -> (i <= Z.to_nat (time_frame cfg))%nat ->
  exists x,
    rent_costs_run cfg sb !! i = Some x
    /\ x == Qmin (match i with
                  | O => 0
                  | S _ => inject_Z (sb_weekly_rent sb * 52)
                  end * (1 + rent_inflation cfg) ^ Z.of_nat i)
                 (max_rent cfg).
Proof.
  intros Hframe Hi. unfold rent_costs_run, loc_set_gt.
  rewrite list_lookup_fmap, lookup_inflated by done.
  eexists. split; [reflexivity|]. cbv beta.
  destruct (Qle_bool _ (max_rent cfg)) eqn:E.
  - apply Qle_bool_iff in E. by rewrite Q.min_l.
  - assert (Hgt : ~ (match i with
                     | O => 0
                     | S _ => inject_Z (sb_weekly_rent sb * 52)
                     end * (1 + rent_inflation cfg) ^ Z.of_nat i
                     <= max_rent cfg)).
    { intros Hle. apply Qle_bool_iff in Hle. congruence. }
    apply Qnot_le_lt in Hgt. rewrite Q.min_r; [reflexivity|].
    by apply Qlt_le_weak.
Qed.

Lemma lookup_loan_payments (cfg : Settings) (sb : Sidebar) (home_loan : Loan)
    (i : nat) :
  (0 <= sb_term sb)%Z -> (i <= Z.to_nat (time_frame cfg))%nat ->
  loan_payments_run cfg sb home_loan !! i
  = Some (match i with
          | O => deposit_amt sb
          | S _ => if decide (Z.of_nat i <= sb_term sb)%Z
                   then monthly_payment home_loan * 12 else 0
          end).
Proof.
  intros Hterm Hi. unfold loan_payments_run. destruct i as [|i].
  - apply list_lookup_insert_eq.
    rewrite length_iloc_set_slice, length_replicate. lia.
  - rewrite list_lookup_insert_ne by done.
    rewrite iloc_set_slice_payments by done.
    destruct (decide (S i < S (Z.to_nat (time_frame cfg)))%nat); [|lia].
    f_equal. destruct (decide (1 <= Z.of_nat (S i) <= sb_term sb)%Z);
      destruct (decide (Z.of_nat (S i) <= sb_term sb)%Z);
      first [reflexivity | lia].
Qed.

Lemma lookup_loan_payments_0 (cfg : Settings) (sb : Sidebar)
    (home_loan : Loan) :
  loan_payments_run cfg sb home_loan !! 0%nat = Some (deposit_amt sb).
Proof.
  unfold loan_payments_run. apply list_lookup_insert_eq.
  rewrite length_iloc_set_slice, length_replicate. lia.
Qed.

Lemma length_loan_payments (cfg : Settings) (sb : Sidebar) (home_loan : Loan) :
  length (loan_payments_run cfg sb home_loan) = S (Z.to_nat (time_frame cfg)).
Proof.
  unfold loan_payments_run.
  by rewrite length_insert, length_iloc_set_slice, length_replicate.
Qed.

Lemma length_rent_costs (cfg : Settings) (sb : Sidebar) :
  (0 <= time_frame cfg)%Z ->
  length (rent_costs_run cfg sb) = S (Z.to_nat (time_frame cfg)).
Proof.
  intros Hframe. unfold rent_costs_run, loc_set_gt.
  rewrite length_fmap. by apply length_inflated.
Qed.

Lemma length_savings (cfg : Settings) (sb : Sidebar) (home_loan : Loan) :
  (0 <= time_frame cfg)%Z ->
  length (savings_run cfg sb home_loan) = S (Z.to_nat (time_frame cfg)).
Proof.
  intros Hframe. unfold savings_run, series_sub, series_add.
  rewrite !length_zip_with, length_loan_payments, length_rent_costs by done.
  unfold ownership_costs_run. rewrite length_inflated by done. lia.
Qed.

Lemma lookup_savings (cfg : Settings) (sb : Sidebar) (home_loan : Loan)
    (i : nat) (s : Q) :
  savings_run cfg sb home_loan !! i = Some s ->
  exists o l r,
    ownership_costs_run cfg sb !! i = Some o
    /\ loan_payments_run cfg sb home_loan !! i = Some l
    /\ rent_costs_run cfg sb !! i = Some r
    /\ s = o + l - r.
Proof.
  unfold savings_run, series_sub, series_add. intros H.
  apply lookup_zip_with_Some in H as (ol & r & -> & Hol & Hr).
  apply lookup_zip_with_Some in Hol as (o & l & -> & Ho & Hl).
  by exists o, l, r.
Qed.

Lemma lookup_property_growth (cfg : Settings) (sb : Sidebar) (i : nat) :
  (i <= Z.to_nat (time_frame cfg))%nat ->
  exists g,
    property_growth_run cfg sb !! i = Some g
    /\ g == inject_Z (sb_house_price sb)
            * (1 + property_return_of cfg sb) ^ Z.of_nat i.
Proof.
  intros Hi. unfold property_growth_run, series_scale.
  destruct (cumprod_returns (1 + property_return_of cfg sb)
              (Z.to_nat (time_frame cfg)) i) as (x & Hx & Hv); [lia|].
  rewrite list_lookup_fmap, Hx. eexists. split; [reflexivity|].
  cbv beta. rewrite Hv. ring.
Qed.

Lemma length_property_growth (cfg : Settings) (sb : Sidebar) :
  length (property_growth_run cfg sb) = S (Z.to_nat (time_frame cfg)).
Proof.
  unfold property_growth_run, series_scale.
  rewrite length_fmap, length_cumprod. cbn [length].
  by rewrite length_replicate.
Qed.

Lemma at_year_nat (s : Series) (y : Z) (x v : Q) :
  (0 <= y)%Z -> s !! Z.to_nat y = Some x -> x == v -> at_year s y v.
Proof. intros Hy Hs Hv. split; [exact Hy|]. by exists x. Qed.

(** Every way a run can end. *)
Lemma main_with_outcome (cfg : Settings) (Loan_ : LoanClass) (sb : Sidebar) :
  (exists out, main_with cfg Loan_ sb = Ok out)
  \/ (exists e,
        Loan_ (loan_principal sb) (effective_rate sb) (sb_term sb) = Raise e
        /\ main_with cfg Loan_ sb = Raise e)
  \/ (exists home_loan,
        Loan_ (loan_principal sb) (effective_rate sb) (sb_term sb)
        = Ok home_loan
        /\ (main_with cfg Loan_ sb = Raise ValueError
            \/ main_with cfg Loan_ sb = Raise IndexError
            \/ exists k e, schedule home_loan k = Raise e
                           /\ main_with cfg Loan_ sb = Raise e)).
Proof.
  destruct (Loan_ (loan_principal sb) (effective_rate sb) (sb_term sb))
    as [home_loan|e] eqn:Hloan.
  2:{ right. left. exists e. split; [reflexivity|].
      by apply main_with_refused. }
  destruct (Z.lt_trichotomy (time_frame cfg + 1) 0) as [Hneg | [Hzero | Hpos]].
  - right. right. exists home_loan. split; [reflexivity|]. left.
    unfold loan_principal, deposit_amt, effective_rate in Hloan.
    cbv beta iota zeta delta
      [main_with read_loan_inputs read_ownership_cost_input
       read_rent_inputs read_investment_inputs].
    rewrite Hloan, result_bind_Ok. unfold np_zeros.
    destruct (Z.ltb_spec (time_frame cfg + 1) 0); [|lia].
    by destruct (sb_change_default_investment_setting sb).
  - right. right. exists home_loan. split; [reflexivity|]. right. left.
    unfold loan_principal, deposit_amt, effective_rate in Hloan.
    cbv beta iota zeta delta
      [main_with read_loan_inputs read_ownership_cost_input
       read_rent_inputs read_investment_inputs].
    rewrite Hloan, result_bind_Ok, Hzero.
    by destruct (sb_change_default_investment_setting sb).
  - assert (Hframe : (0 <= time_frame cfg)%Z) by lia.
    rewrite (main_with_granted cfg Loan_ sb home_loan Hframe Hloan).
    destruct (balances_loop_outcome home_loan (np_arange (sb_term sb))
                (replicate (S (Z.to_nat (time_frame cfg))) 0))
      as [(bal & Hbal & Hlen) | [Hbal | (k & e & Hrow & Hbal)]];
      rewrite Hbal.
    + left. rewrite result_bind_Ok.
      destruct (renting_loop_Ok (portfolio_return_of cfg sb)
                  (savings_run cfg sb home_loan)
                  (S (Z.to_nat (time_frame cfg))) 0 0
                  (replicate (S (Z.to_nat (time_frame cfg))) 0))
        as (renting & Hrent & _).
      { rewrite length_replicate. lia. }
      { rewrite length_savings by done. lia. }
      unfold np_arange.
      replace (Z.to_nat (time_frame cfg + 1))
        with (S (Z.to_nat (time_frame cfg))) by lia.
      rewrite Hrent, result_bind_Ok. by eexists.
    + right. right. exists home_loan. split; [reflexivity|]. by right; left.
    + right. right. exists home_loan. split; [reflexivity|].
      right. right. by exists k, e.
Qed.

Lemma run_lengths (cfg : Settings) (Loan_ : LoanClass) (sb : Sidebar)
    (home_loan : Loan) :
  accepted cfg Loan_ sb home_loan ->
  exists out,
    main_with cfg Loan_ sb = Ok out
    /\ all_lengths out (Z.to_nat (time_frame cfg + 1)).
Proof.
  intros Hacc.
  destruct (accepted_run _ _ _ _ Hacc)
    as (bal & renting & Hrun & Hbal & _ & Hrenting & _).
  destruct Hacc as (Hframe & _).
  eexists. split; [exact Hrun|].
  assert (Hn : Z.to_nat (time_frame cfg + 1) = S (Z.to_nat (time_frame cfg)))
    by lia.
  unfold all_lengths.
  cbn [ownership_costs loan_payments rent_costs savings_rent_vs_buy
       asset_values_owning asset_values_renting].
  rewrite Hn. unfold series_sub at 1.
  rewrite length_zip_with, length_property_growth, Hbal, Hrenting,
    length_savings, length_rent_costs, length_loan_payments by done.
  unfold ownership_costs_run. rewrite length_inflated by done.
  repeat split; lia.
Qed.

Lemma default_accepted :
  accepted default_settings computeSchedule default_sidebar default_loan.
Proof. apply valid_sidebar_accepted; [reflexivity | by vm_compute]. Qed.

Lemma negative_deposit_accepted :
  accepted default_settings computeSchedule negative_deposit_sidebar
    (amortized (loan_principal negative_deposit_sidebar)
               (effective_rate negative_deposit_sidebar)
               (sb_term negative_deposit_sidebar)).
Proof.
  unfold accepted. split; [by vm_compute|]. split; [|split].
  - apply computeSchedule_accepts.
    + by vm_compute.
    + apply effective_rate_nonneg. by vm_compute.
    + by vm_compute.
  - by vm_compute.
  - apply amortized_ready.
Qed.

(** * A worked run

    Horizon of three years, a two-year loan of 720000 free of interest:
    thirty thousand a month, the balance read one month into each
    year. *)

Lemma interest_free_run :
  match main_with short_settings computeSchedule
          {| sb_house_price := 800000;
             sb_deposit_pct := 10;
             sb_term := 2;
             sb_home_loan_rate := 0;
             sb_strata_council_cost := 1500;
             sb_home_insurance := 60;
             sb_transport_cost := 200;
             sb_weekly_rent := 690;
             sb_change_default_investment_setting := false;
             sb_property_return := 3;
             sb_portfolio_return := 5 |}
  with
  | Ok out =>
      Qred <$> loan_payments out = [80000; 360000; 360000; 0]
      /\ Qred <$> balances out = [690000; 330000; 0; 0]
      /\ Qred <$> asset_values_owning out
         = [110000; 494000; 848720; 4370908 # 5]
      /\ Qred <$> ownership_costs out
         = [0; 128112 # 5; 3266856 # 125; 83304828 # 3125]
      /\ Qred <$> savings_rent_vs_buy out
         = [80000; 348666; 87017439 # 250; -62747499 # 5000]
  | Raise _ => False
  end.
Proof. vm_compute. repeat split. Qed.

(** * The claims

    An input is accepted when [accepted] holds of it: the loan is
    granted and the term fits the horizon.  Every sidebar within the
    bounds of the widgets is accepted by the calculator of the design
    document under the constants of [main], unless the deposit is the
    whole price ([valid_sidebar_accepted]). *)

(** C1: for every accepted input and every year [y] with
    [0 <= y <= horizon], the property asset value of year [y] is
    [housePrice * (1 + propertyReturn)^y] minus the balance of the loan
    row at period [12*y + 1] when [y < termYears], and it is
    [housePrice * (1 + propertyReturn)^y], with nothing subtracted, when
    [termYears <= y]. *)
Theorem asset_values_owning_by_year (cfg : Settings) (Loan_ : LoanClass)
    (sb : Sidebar) (home_loan : Loan) :
  accepted cfg Loan_ sb home_loan ->
  exists out,
    main_with cfg Loan_ sb = Ok out
    /\ forall y, (0 <= y <= time_frame cfg)%Z ->
         ((y < sb_term sb)%Z ->
            exists inst,
              schedule home_loan (12 * y + 1)%Z = Ok inst
              /\ at_year (asset_values_owning out) y
                   (inject_Z (sb_house_price sb)
                    * (1 + property_return_of cfg sb) ^ y
                    - balance inst))
         /\ ((sb_term sb <= y)%Z ->
               at_year (asset_values_owning out) y
                 (inject_Z (sb_house_price sb)
                  * (1 + property_return_of cfg sb) ^ y)).
Proof.
  intros Hacc.
  destruct (accepted_run _ _ _ _ Hacc)
    as (bal & renting & Hrun & _ & Hbal & _).
  destruct Hacc as (Hframe & _ & _ & Hrows).
  eexists. split; [exact Hrun|]. cbn [asset_values_owning].
  intros y Hy.
  destruct (lookup_property_growth cfg sb (Z.to_nat y)) as (g & Hg & Hgv);
    [lia|].
  rewrite Z2Nat.id in Hgv by lia.
  pose proof (Hbal (Z.to_nat y)) as Hb. rewrite Z2Nat.id in Hb by lia.
  split.
  - intros Hlt. destruct (Hrows y) as [inst Hinst]; [lia|].
    exists inst. split; [exact Hinst|].
    destruct (decide (y < sb_term sb)%Z); [|lia].
    rewrite (balance_at_Ok _ _ _ Hinst) in Hb.
    apply (at_year_nat _ _ (g - balance inst)); [lia| |by rewrite Hgv].
    unfold series_sub. by rewrite lookup_zip_with, Hg, Hb.
  - intros Hge. destruct (decide (y < sb_term sb)%Z); [lia|].
    rewrite lookup_replicate_2 in Hb by lia.
    apply (at_year_nat _ _ (g - 0)); [lia| |rewrite Hgv; ring].
    unfold series_sub. by rewrite lookup_zip_with, Hg, Hb.
Qed.

(** C2, as the code has it: [main] checks no input itself.  With the
    calculator of the design document the run fails with
    InvalidParameter, and yields no series, exactly when the principal
    is [<= 0], the effective loan rate is [< 0] or the term is [<= 0];
    whatever the loan class, its refusal is the outcome of the run; and
    once the loan is granted, with [0 <= horizon] and
    [termYears <= horizon + 1], the run returns every series in full,
    whatever the deposit fraction, the rates and the costs are. *)
Theorem failure_only_through_the_loan (cfg : Settings) (sb : Sidebar) :
  (main_with cfg computeSchedule sb = Raise InvalidParameter <->
   loan_principal sb <= 0 \/ effective_rate sb < 0 \/ (sb_term sb <= 0)%Z)
  /\ (forall (Loan_ : LoanClass) (e : exn),
        Loan_ (loan_principal sb) (effective_rate sb) (sb_term sb) = Raise e ->
        main_with cfg Loan_ sb = Raise e)
  /\ (forall (Loan_ : LoanClass) (home_loan : Loan),
        accepted cfg Loan_ sb home_loan ->
        exists out,
          main_with cfg Loan_ sb = Ok out
          /\ all_lengths out (Z.to_nat (time_frame cfg + 1))).
Proof.
  split; [|split].
  - split.
    + intros Hrun.
      destruct (computeSchedule_cases (loan_principal sb) (effective_rate sb)
                  (sb_term sb)) as [(_ & Hout) | (Hgranted & _)];
        [exact Hout|].
      exfalso.
      destruct (main_with_outcome cfg computeSchedule sb)
        as [(out & Hok) | [(e & Hrefused & _)
                          | (home_loan & Hloan & Hend)]].
      * congruence.
      * congruence.
      * rewrite Hgranted in Hloan. injection Hloan as <-.
        destruct Hend as [Hend | [Hend | (k & e & Hrow & Hend)]];
          [congruence | congruence |].
        apply amortized_rows in Hrow. congruence.
    + intros Hout. apply main_with_refused.
      by apply computeSchedule_refuses.
  - intros Loan_ e. apply main_with_refused.
  - intros Loan_ home_loan. apply run_lengths.
Qed.

(** C2 as stated fails: a deposit of minus ten percent lies outside the
    stated domain, yet the run is not refused and returns all series. *)
Lemma negative_deposit_not_refused :
  in_stated_domain default_settings negative_deposit_sidebar = false
  /\ main computeSchedule negative_deposit_sidebar <> Raise InvalidParameter
  /\ exists out,
       main computeSchedule negative_deposit_sidebar = Ok out
       /\ all_lengths out 51.
Proof.
  destruct (run_lengths _ _ _ _ negative_deposit_accepted)
    as (out & Hrun & Hall).
  split; [by vm_compute|]. unfold main. split.
  - rewrite Hrun. discriminate.
  - exists out. split; [exact Hrun | exact Hall].
Qed.

(** C3: for every accepted input (with a rent cap that is not
    negative), the portfolio asset value of year 0 equals the expense
    difference of year 0, which is the deposit; for every year
    [1 <= y <= horizon] the portfolio asset value is the value of year
    [y - 1] times [1 + portfolioReturn] plus the expense difference of
    year [y]; and the expense difference of every year is ownership
    cost plus loan payment minus rent cost of that year. *)
Theorem asset_values_renting_by_year (cfg : Settings) (Loan_ : LoanClass)
    (sb : Sidebar) (home_loan : Loan) :
  accepted cfg Loan_ sb home_loan ->
  0 <= max_rent cfg ->
  exists out,
    main_with cfg Loan_ sb = Ok out
    /\ (exists d0,
          at_year (savings_rent_vs_buy out) 0 d0
          /\ at_year (asset_values_renting out) 0 d0
          /\ d0 == inject_Z (sb_house_price sb)
                   * (inject_Z (sb_deposit_pct sb) / 100))
    /\ (forall y, (1 <= y <= time_frame cfg)%Z ->
          exists prev d,
            at_year (asset_values_renting out) (y - 1) prev
            /\ at_year (savings_rent_vs_buy out) y d
            /\ at_year (asset_values_renting out) y
                 (prev * (1 + portfolio_return_of cfg sb) + d))
    /\ (forall y, (0 <= y <= time_frame cfg)%Z ->
          exists o l r,
            at_year (ownership_costs out) y o
            /\ at_year (loan_payments out) y l
            /\ at_year (rent_costs out) y r
            /\ at_year (savings_rent_vs_buy out) y (o + l - r)).
Proof.
  intros Hacc Hcap.
  destruct (accepted_run _ _ _ _ Hacc)
    as (bal & renting & Hrun & _ & _ & _ & Hfirst & Hrec).
  destruct Hacc as (Hframe & _).
  eexists. split; [exact Hrun|].
  cbn [ownership_costs loan_payments rent_costs savings_rent_vs_buy
       asset_values_renting].
  split; [|split].
  - destruct Hfirst as (s & Hs & Hr). exists s.
    split; [by apply (at_year_nat _ _ s)|].
    split; [eapply at_year_nat; [lia | exact Hr | ring]|].
    destruct (lookup_savings _ _ _ _ _ Hs) as (o & l & r & Ho & Hl & Hrc & ->).
    rewrite lookup_ownership_costs in Ho by (done || lia).
    rewrite lookup_loan_payments_0 in Hl.
    destruct (lookup_rent_costs cfg sb 0) as (x & Hx & Hv); [done|lia|].
    rewrite Hx in Hrc. injection Ho as <-. injection Hl as <-.
    injection Hrc as <-. rewrite Hv, Q.min_l.
    + unfold deposit_amt. ring.
    + change (Z.of_nat 0) with 0%Z. rewrite Qmult_0_l. exact Hcap.
  - intros y Hy.
    destruct (Hrec (Z.to_nat (y - 1))) as (x & s & Hx & Hs & Hnext); [lia|].
    replace (S (Z.to_nat (y - 1))) with (Z.to_nat y) in Hs, Hnext by lia.
    exists x, s.
    split; [by apply (at_year_nat _ _ x); [lia|..]|].
    split; [by apply (at_year_nat _ _ s); [lia|..]|].
    by eapply at_year_nat; [lia|..].
  - intros y Hy.
    destruct (lookup_lt_is_Some_2 (savings_run cfg sb home_loan) (Z.to_nat y))
      as [s Hs].
    { rewrite length_savings by done. lia. }
    destruct (lookup_savings _ _ _ _ _ Hs) as (o & l & r & Ho & Hl & Hr & ->).
    exists o, l, r.
    repeat split; try lia; eexists; (split; [eassumption | reflexivity]).
Qed.

(** C4: for every accepted input with a rent cap that is not negative,
    the rent cost of year 0 is 0, the rent cost of every year
    [1 <= y <= horizon] is the smaller of
    [weeklyRent * 52 * (1 + rentInflation)^y] and [maxRent], year by
    year, and so no year's rent cost exceeds [maxRent]. *)
Theorem rent_costs_by_year (cfg : Settings) (Loan_ : LoanClass)
    (sb : Sidebar) (home_loan : Loan) :
  accepted cfg Loan_ sb home_loan ->
  0 <= max_rent cfg ->
  exists out,
    main_with cfg Loan_ sb = Ok out
    /\ at_year (rent_costs out) 0 0
    /\ (forall y, (1 <= y <= time_frame cfg)%Z ->
          at_year (rent_costs out) y
            (Qmin (inject_Z (sb_weekly_rent sb) * 52
                   * (1 + rent_inflation cfg) ^ y)
                  (max_rent cfg)))
    /\ (forall y, (0 <= y <= time_frame cfg)%Z ->
          exists x, rent_costs out !! Z.to_nat y = Some x
                    /\ x <= max_rent cfg).
Proof.
  intros Hacc Hcap.
  destruct (accepted_run _ _ _ _ Hacc) as (bal & renting & Hrun & _).
  destruct Hacc as (Hframe & _).
  eexists. split; [exact Hrun|]. cbn [rent_costs].
  split; [|split].
  - destruct (lookup_rent_costs cfg sb 0) as (x & Hx & Hv); [done|lia|].
    apply (at_year_nat _ _ x); [lia|exact Hx|].
    rewrite Hv, Q.min_l; [ring|].
    change (Z.of_nat 0) with 0%Z. rewrite Qmult_0_l. exact Hcap.
  - intros y Hy.
    destruct (lookup_rent_costs cfg sb (Z.to_nat y)) as (x & Hx & Hv);
      [done|lia|].
    apply (at_year_nat _ _ x); [lia|exact Hx|].
    rewrite Hv. rewrite Z2Nat.id by lia.
    destruct (Z.to_nat y) eqn:E; [lia|].
    by rewrite inject_Z_mult.
  - intros y Hy.
    destruct (lookup_rent_costs cfg sb (Z.to_nat y)) as (x & Hx & Hv);
      [done|lia|].
    exists x. split; [exact Hx|]. rewrite Hv. apply Q.le_min_r.
Qed.

(** C5: for every accepted input (with a term that is not negative),
    the loan payment of year 0 is the deposit
    [housePrice * depositFraction]; it is [monthlyPayment * 12], the
    same nominal amount, in every year [1 <= y <= termYears] of the
    series; and it is 0 in every year [termYears < y <= horizon]. *)
Theorem loan_payments_by_year (cfg : Settings) (Loan_ : LoanClass)
    (sb : Sidebar) (home_loan : Loan) :
  accepted cfg Loan_ sb home_loan ->
  (0 <= sb_term sb)%Z ->
  exists out,
    main_with cfg Loan_ sb = Ok out
    /\ at_year (loan_payments out) 0
         (inject_Z (sb_house_price sb) * (inject_Z (sb_deposit_pct sb) / 100))
    /\ (forall y, (1 <= y <= sb_term sb)%Z -> (y <= time_frame cfg)%Z ->
          at_year (loan_payments out) y (monthly_payment home_loan * 12))
    /\ (forall y, (sb_term sb < y <= time_frame cfg)%Z ->
          at_year (loan_payments out) y 0).
Proof.
  intros Hacc Hterm.
  destruct (accepted_run _ _ _ _ Hacc) as (bal & renting & Hrun & _).
  destruct Hacc as (Hframe & _).
  eexists. split; [exact Hrun|]. cbn [loan_payments].
  split; [|split].
  - eapply at_year_nat; [lia| |reflexivity].
    apply (lookup_loan_payments cfg sb home_loan 0); [done | lia].
  - intros y Hy Hle.
    eapply at_year_nat; [lia| |reflexivity].
    rewrite lookup_loan_payments by (done || lia).
    destruct (Z.to_nat y) eqn:E; [lia|]. rewrite <- E.
    destruct (decide _); [done | lia].
  - intros y Hy.
    eapply at_year_nat; [lia| |reflexivity].
    rewrite lookup_loan_payments by (done || lia).
    destruct (Z.to_nat y) eqn:E; [lia|]. rewrite <- E.
    destruct (decide _); [lia | done].
Qed.

(** C6: for every accepted input, the ownership cost of year 0 is 0 and
    the ownership cost of every year [1 <= y <= horizon] is
    [(maintenance + strataCouncilWater*4 + insurance*12 + transport*52)
     * (1 + inflation)^y], where maintenance is 1% of the house price
    entered in the sidebar, the same in every year. *)
Theorem ownership_costs_by_year (cfg : Settings) (Loan_ : LoanClass)
    (sb : Sidebar) (home_loan : Loan) :
  accepted cfg Loan_ sb home_loan ->
  exists out,
    main_with cfg Loan_ sb = Ok out
    /\ at_year (ownership_costs out) 0 0
    /\ forall y, (1 <= y <= time_frame cfg)%Z ->
         at_year (ownership_costs out) y
           (((1 # 100) * inject_Z (sb_house_price sb)
             + inject_Z (sb_strata_council_cost sb) * 4
             + inject_Z (sb_home_insurance sb) * 12
             + inject_Z (sb_transport_cost sb) * 52)
            * (1 + inflation cfg) ^ y).
Proof.
  intros Hacc.
  destruct (accepted_run _ _ _ _ Hacc) as (bal & renting & Hrun & _).
  destruct Hacc as (Hframe & _).
  eexists. split; [exact Hrun|]. cbn [ownership_costs].
  split.
  - eapply at_year_nat; [lia| |].
    + by apply (lookup_ownership_costs cfg sb 0); [|lia].
    + cbv beta iota. ring.
  - intros y Hy.
    eapply at_year_nat; [lia| |].
    + apply lookup_ownership_costs; [done | lia].
    + rewrite Z2Nat.id by lia. destruct (Z.to_nat y) eqn:E; [lia|].
      unfold total_ownership_cost. by rewrite !inject_Z_mult.
Qed.

(** C7: whatever nominal rate the sidebar holds, the interest rate that
    reaches the loan constructor is the effective annual rate of daily
    compounding, [(1 + nominal/100/365)^365 - 1].  [read_loan_inputs]
    returns that rate; [main] calls the constructor at that rate, so a
    refusal there is the outcome of the run whatever the class would do
    at the nominal rate; and the payment schedule of the run is that of
    the loan built at that rate: its [monthly_payment] times 12 in every
    year of the term, its rows [12*y + 1] as the balances.  Hence two
    loan classes that agree at that rate give the same run. *)
Theorem loan_rate_is_daily_compounded (cfg : Settings) (Loan_ : LoanClass)
    (sb : Sidebar) :
  (read_loan_inputs sb).2
  = (1 + sb_home_loan_rate sb / 100 / 365) ^ 365 - 1
  /\ (forall e : exn,
        Loan_ (loan_principal sb)
              ((1 + sb_home_loan_rate sb / 100 / 365) ^ 365 - 1) (sb_term sb)
        = Raise e ->
        main_with cfg Loan_ sb = Raise e)
  /\ (forall home_loan : Loan,
        Loan_ (loan_principal sb)
              ((1 + sb_home_loan_rate sb / 100 / 365) ^ 365 - 1) (sb_term sb)
        = Ok home_loan ->
        (0 <= time_frame cfg)%Z ->
        (0 <= sb_term sb <= time_frame cfg + 1)%Z ->
        schedule_ready home_loan (sb_term sb) ->
        exists out,
          main_with cfg Loan_ sb = Ok out
          /\ (forall y, (1 <= y <= sb_term sb)%Z -> (y <= time_frame cfg)%Z ->
                at_year (loan_payments out) y (monthly_payment home_loan * 12))
          /\ (forall y, (0 <= y < sb_term sb)%Z -> (y <= time_frame cfg)%Z ->
                exists inst,
                  schedule home_loan (12 * y + 1)%Z = Ok inst
                  /\ balances out !! Z.to_nat y = Some (balance inst)))
  /\ (forall Loan' : LoanClass,
        Loan' (loan_principal sb)
              ((1 + sb_home_loan_rate sb / 100 / 365) ^ 365 - 1) (sb_term sb)
        = Loan_ (loan_principal sb)
                ((1 + sb_home_loan_rate sb / 100 / 365) ^ 365 - 1)
                (sb_term sb) ->
        main_with cfg Loan' sb = main_with cfg Loan_ sb).
Proof.
  split; [reflexivity|]. split; [|split].
  - intros e Hrefused. by apply main_with_refused.
  - intros home_loan Hloan Hframe Hterm Hrows.
    destruct (accepted_run cfg Loan_ sb home_loan)
      as (bal & renting & Hrun & _ & Hbal & _).
    { unfold accepted. split; [exact Hframe|]. split; [exact Hloan|].
      split; [lia | exact Hrows]. }
    eexists. split; [exact Hrun|]. cbn [loan_payments balances]. split.
    + intros y Hy Hle.
      eapply at_year_nat; [lia| |reflexivity].
      rewrite lookup_loan_payments by (lia || done).
      destruct (Z.to_nat y) eqn:E; [lia|]. rewrite <- E.
      destruct (decide _); [done | lia].
    + intros y Hy Hle. destruct (Hrows y) as [inst Hinst]; [lia|].
      exists inst. split; [exact Hinst|].
      rewrite Hbal, Z2Nat.id by lia.
      destruct (decide (y < sb_term sb)%Z); [|lia].
      by rewrite (balance_at_Ok _ _ _ Hinst).
  - intros Loan' Hsame. unfold loan_principal, deposit_amt in Hsame.
    cbv beta iota zeta delta [main_with read_loan_inputs].
    by rewrite Hsame.
Qed.

(** C8: for every accepted input, each of the six output series
    (ownership cost, loan payment, rent cost, expense difference,
    property asset value, portfolio asset value) has exactly
    [horizon + 1] entries, so each holds every year [0 .. horizon] and
    no other. *)
Theorem series_lengths (cfg : Settings) (Loan_ : LoanClass)
    (sb : Sidebar) (home_loan : Loan) :
  accepted cfg Loan_ sb home_loan ->
  exists out,
    main_with cfg Loan_ sb = Ok out
    /\ all_lengths out (Z.to_nat (time_frame cfg + 1))
    /\ forall (y : nat),
         (Z.of_nat y <= time_frame cfg)%Z <->
         (is_Some (ownership_costs out !! y)
          /\ is_Some (loan_payments out !! y)
          /\ is_Some (rent_costs out !! y)
          /\ is_Some (savings_rent_vs_buy out !! y)
          /\ is_Some (asset_values_owning out !! y)
          /\ is_Some (asset_values_renting out !! y)).
Proof.
  intros Hacc.
  destruct (run_lengths _ _ _ _ Hacc) as (out & Hrun & Hall).
  exists out. split; [exact Hrun|]. split; [exact Hall|].
  destruct Hacc as (Hframe & _).
  destruct Hall as (H1 & H2 & H3 & H4 & H5 & H6).
  intros y. rewrite !lookup_lt_is_Some, H1, H2, H3, H4, H5, H6. lia.
Qed.

(** C9: for every accepted input with [inflation > 0] (and a positive
    house price and no negative recurring cost, as the widgets ensure),
    the ownership cost grows strictly from year 1 on: the cost of year
    [y + 1] exceeds the cost of year [y] for every [y >= 1] with
    [y + 1 <= horizon]. *)
Theorem ownership_costs_increasing (cfg : Settings) (Loan_ : LoanClass)
    (sb : Sidebar) (home_loan : Loan) :
  accepted cfg Loan_ sb home_loan ->
  0 < inflation cfg ->
  (0 < sb_house_price sb)%Z ->
  (0 <= sb_strata_council_cost sb)%Z ->
  (0 <= sb_home_insurance sb)%Z ->
  (0 <= sb_transport_cost sb)%Z ->
  exists out,
    main_with cfg Loan_ sb = Ok out
    /\ forall y, (1 <= y)%Z -> (y + 1 <= time_frame cfg)%Z ->
         exists a b,
           ownership_costs out !! Z.to_nat y = Some a
           /\ ownership_costs out !! Z.to_nat (y + 1) = Some b
           /\ a < b.
Proof.
  intros Hacc Hinfl Hprice Hstrata Hins Htransport.
  destruct (accepted_run _ _ _ _ Hacc) as (bal & renting & Hrun & _).
  destruct Hacc as (Hframe & _).
  eexists. split; [exact Hrun|]. cbn [ownership_costs].
  intros y Hy Hy1.
  assert (Htotal : 0 < total_ownership_cost sb).
  { unfold total_ownership_cost.
    assert (0 < inject_Z (sb_house_price sb))
      by (change 0 with (inject_Z 0); rewrite <- Zlt_Qlt; lia).
    assert (0 <= inject_Z (sb_strata_council_cost sb * 4))
      by (change 0 with (inject_Z 0); rewrite <- Zle_Qle; lia).
    assert (0 <= inject_Z (sb_home_insurance sb * 12))
      by (change 0 with (inject_Z 0); rewrite <- Zle_Qle; lia).
    assert (0 <= inject_Z (sb_transport_cost sb * 52))
      by (change 0 with (inject_Z 0); rewrite <- Zle_Qle; lia).
    lra. }
  assert (Hpow : 0 < (1 + inflation cfg) ^ y)
    by (apply Qpower_0_lt; lra).
  do 2 eexists. split; [|split].
  - apply lookup_ownership_costs; [done | lia].
  - apply lookup_ownership_costs; [done | lia].
  - rewrite !Z2Nat.id by lia.
    destruct (Z.to_nat y) eqn:E; [lia|].
    destruct (Z.to_nat (y + 1)) eqn:E1; [lia|].
    rewrite Qpower_succ by lia.
    assert (Hprod : 0 < total_ownership_cost sb * (1 + inflation cfg) ^ y)
      by (by apply Qmult_lt_0_compat).
    assert (Hgain : 0 < total_ownership_cost sb * (1 + inflation cfg) ^ y
                        * inflation cfg)
      by (by apply Qmult_lt_0_compat).
    lra.
Qed.

(** C10: when the loan is granted with its rows and
    [termYears <= horizon], the run completes: the balance loop writes
    the years [0 .. termYears - 1] of a series of [horizon + 1] entries
    and leaves the later years at zero, so no access is out of bounds.
    With the calculator of the design document, every input with
    [termYears <= horizon] either is refused by the calculator before
    any series exists or runs to its end; IndexError is not among the
    outcomes.  And there is an input with [termYears > horizon + 1] on
    which the loop leaves the series and the run raises IndexError. *)
Theorem balance_loop_bounds :
  (forall (cfg : Settings) (Loan_ : LoanClass) (sb : Sidebar)
          (home_loan : Loan),
      (0 <= time_frame cfg)%Z ->
      Loan_ (loan_principal sb) (effective_rate sb) (sb_term sb)
      = Ok home_loan ->
      schedule_ready home_loan (sb_term sb) ->
      (sb_term sb <= time_frame cfg)%Z ->
      exists out,
        main_with cfg Loan_ sb = Ok out
        /\ length (balances out) = Z.to_nat (time_frame cfg + 1)
        /\ forall y : nat,
             balances out !! y =
             if decide (Z.of_nat y < sb_term sb)%Z
             then Some (balance_at home_loan (Z.of_nat y))
             else if decide (Z.of_nat y <= time_frame cfg)%Z
                  then Some 0 else None)
  /\ (forall (cfg : Settings) (sb : Sidebar),
         (sb_term sb <= time_frame cfg)%Z ->
         (exists out, main_with cfg computeSchedule sb = Ok out)
         \/ main_with cfg computeSchedule sb = Raise InvalidParameter)
  /\ (exists (cfg : Settings) (sb : Sidebar),
         (time_frame cfg + 1 < sb_term sb)%Z
         /\ main_with cfg computeSchedule sb = Raise IndexError).
Proof.
  split; [|split].
  - intros cfg Loan_ sb home_loan Hframe Hloan Hrows Hterm.
    destruct (accepted_run cfg Loan_ sb home_loan)
      as (bal & renting & Hrun & Hlen & Hbal & _).
    { unfold accepted. repeat split; [lia | done | lia | done]. }
    eexists. split; [exact Hrun|]. cbn [balances].
    split; [rewrite Hlen; lia|].
    intros y. rewrite Hbal. destruct (decide (Z.of_nat y < sb_term sb)%Z);
      [reflexivity|].
    destruct (decide (Z.of_nat y <= time_frame cfg)%Z).
    + apply lookup_replicate_2. lia.
    + apply lookup_replicate_None. lia.
  - intros cfg sb Hterm.
    destruct (computeSchedule_cases (loan_principal sb) (effective_rate sb)
                (sb_term sb)) as [(Hrefused & _) | (_ & Hp & Hi & Ht)].
    + right. by apply main_with_refused.
    + left.
      destruct (run_lengths cfg computeSchedule sb
                  (amortized (loan_principal sb) (effective_rate sb)
                             (sb_term sb))) as (out & Hrun & _).
      { unfold accepted. split; [lia|]. split; [|split].
        - by apply computeSchedule_accepts.
        - lia.
        - apply amortized_ready. }
      by exists out.
  - exists short_settings, default_sidebar. split; [by vm_compute|].
    apply (main_with_IndexError _ _ _ default_loan).
    + by vm_compute.
    + apply computeSchedule_accepts.
      * by vm_compute.
      * apply effective_rate_nonneg. by vm_compute.
      * by vm_compute.
    + by vm_compute.
    + apply amortized_ready.
Qed.

(** * The claims at the sample sidebar

    Each statement with hypotheses, applied to the default position of
    the widgets, the constants of [main] and the calculator of the
    design document. *)

Lemma asset_values_owning_by_year_witness :
  accepted default_settings computeSchedule default_sidebar default_loan
  /\ exists out,
       main_with default_settings computeSchedule default_sidebar = Ok out
       /\ forall y, (0 <= y <= time_frame default_settings)%Z ->
            ((y < sb_term default_sidebar)%Z ->
               exists inst,
                 schedule default_loan (12 * y + 1)%Z = Ok inst
                 /\ at_year (asset_values_owning out) y
                      (inject_Z (sb_house_price default_sidebar)
                       * (1 + property_return_of default_settings
                                default_sidebar) ^ y
                       - balance inst))
            /\ ((sb_term default_sidebar <= y)%Z ->
                  at_year (asset_values_owning out) y
                    (inject_Z (sb_house_price default_sidebar)
                     * (1 + property_return_of default_settings
                              default_sidebar) ^ y)).
Proof.
  split; [exact default_accepted|].
  exact (asset_values_owning_by_year default_settings computeSchedule
           default_sidebar default_loan default_accepted).
Defined.

Lemma failure_only_through_the_loan_witness :
  loan_principal full_deposit_sidebar <= 0
  /\ main_with default_settings computeSchedule full_deposit_sidebar
     = Raise InvalidParameter
  /\ accepted default_settings computeSchedule default_sidebar default_loan
  /\ exists out,
       main_with default_settings computeSchedule default_sidebar = Ok out
       /\ all_lengths out (Z.to_nat (time_frame default_settings + 1)).
Proof.
  assert (Hzero : loan_principal full_deposit_sidebar <= 0) by (by vm_compute).
  split; [exact Hzero|]. split.
  - exact (proj2 (proj1 (failure_only_through_the_loan default_settings
                           full_deposit_sidebar)) (or_introl Hzero)).
  - split; [exact default_accepted|].
    exact (proj2 (proj2 (failure_only_through_the_loan default_settings
                           default_sidebar))
             computeSchedule default_loan default_accepted).
Defined.

Lemma asset_values_renting_by_year_witness :
  accepted default_settings computeSchedule default_sidebar default_loan
  /\ 0 <= max_rent default_settings
  /\ exists out,
       main_with default_settings computeSchedule default_sidebar = Ok out
       /\ (exists d0,
             at_year (savings_rent_vs_buy out) 0 d0
             /\ at_year (asset_values_renting out) 0 d0
             /\ d0 == inject_Z (sb_house_price default_sidebar)
                      * (inject_Z (sb_deposit_pct default_sidebar) / 100))
       /\ (forall y, (1 <= y <= time_frame default_settings)%Z ->
             exists prev d,
               at_year (asset_values_renting out) (y - 1) prev
               /\ at_year (savings_rent_vs_buy out) y d
               /\ at_year (asset_values_renting out) y
                    (prev * (1 + portfolio_return_of default_settings
                                   default_sidebar) + d))
       /\ (forall y, (0 <= y <= time_frame default_settings)%Z ->
             exists o l r,
               at_year (ownership_costs out) y o
               /\ at_year (loan_payments out) y l
               /\ at_year (rent_costs out) y r
               /\ at_year (savings_rent_vs_buy out) y (o + l - r)).
Proof.
  assert (Hcap : 0 <= max_rent default_settings) by (by vm_compute).
  split; [exact default_accepted|]. split; [exact Hcap|].
  exact (asset_values_renting_by_year default_settings computeSchedule
           default_sidebar default_loan default_accepted Hcap).
Defined.

Lemma rent_costs_by_year_witness :
  accepted default_settings computeSchedule default_sidebar default_loan
  /\ 0 <= max_rent default_settings
  /\ exists out,
       main_with default_settings computeSchedule default_sidebar = Ok out
       /\ at_year (rent_costs out) 0 0
       /\ (forall y, (1 <= y <= time_frame default_settings)%Z ->
             at_year (rent_costs out) y
               (Qmin (inject_Z (sb_weekly_rent default_sidebar) * 52
                      * (1 + rent_inflation default_settings) ^ y)
                     (max_rent default_settings)))
       /\ (forall y, (0 <= y <= time_frame default_settings)%Z ->
             exists x, rent_costs out !! Z.to_nat y = Some x
                       /\ x <= max_rent default_settings).
Proof.
  assert (Hcap : 0 <= max_rent default_settings) by (by vm_compute).
  split; [exact default_accepted|]. split; [exact Hcap|].
  exact (rent_costs_by_year default_settings computeSchedule
           default_sidebar default_loan default_accepted Hcap).
Defined.

Lemma loan_payments_by_year_witness :
  accepted default_settings computeSchedule default_sidebar default_loan
  /\ (0 <= sb_term default_sidebar)%Z
  /\ exists out,
       main_with default_settings computeSchedule default_sidebar = Ok out
       /\ at_year (loan_payments out) 0
            (inject_Z (sb_house_price default_sidebar)
             * (inject_Z (sb_deposit_pct default_sidebar) / 100))
       /\ (forall y, (1 <= y <= sb_term default_sidebar)%Z ->
             (y <= time_frame default_settings)%Z ->
             at_year (loan_payments out) y
               (monthly_payment default_loan * 12))
       /\ (forall y,
             (sb_term default_sidebar < y <= time_frame default_settings)%Z ->
             at_year (loan_payments out) y 0).
Proof.
  assert (Hterm : (0 <= sb_term default_sidebar)%Z) by (by vm_compute).
  split; [exact default_accepted|]. split; [exact Hterm|].
  exact (loan_payments_by_year default_settings computeSchedule
           default_sidebar default_loan default_accepted Hterm).
Defined.

Lemma ownership_costs_by_year_witness :
  accepted default_settings computeSchedule default_sidebar default_loan
  /\ exists out,
       main_with default_settings computeSchedule default_sidebar = Ok out
       /\ at_year (ownership_costs out) 0 0
       /\ forall y, (1 <= y <= time_frame default_settings)%Z ->
            at_year (ownership_costs out) y
              (((1 # 100) * inject_Z (sb_house_price default_sidebar)
                + inject_Z (sb_strata_council_cost default_sidebar) * 4
                + inject_Z (sb_home_insurance default_sidebar) * 12
                + inject_Z (sb_transport_cost default_sidebar) * 52)
               * (1 + inflation default_settings) ^ y).
Proof.
  split; [exact default_accepted|].
  exact (ownership_costs_by_year default_settings computeSchedule
           default_sidebar default_loan default_accepted).
Defined.

Lemma loan_rate_is_daily_compounded_witness :
  only_at_rate (sb_home_loan_rate default_sidebar / 100) computeSchedule
    (loan_principal default_sidebar)
    ((1 + sb_home_loan_rate default_sidebar / 100 / 365) ^ 365 - 1)
    (sb_term default_sidebar)
  = Raise InvalidParameter
  /\ main_with default_settings
       (only_at_rate (sb_home_loan_rate default_sidebar / 100)
                     computeSchedule)
       default_sidebar
     = Raise InvalidParameter
  /\ computeSchedule (loan_principal default_sidebar)
       ((1 + sb_home_loan_rate default_sidebar / 100 / 365) ^ 365 - 1)
       (sb_term default_sidebar)
     = Ok default_loan
  /\ exists out,
       main_with default_settings computeSchedule default_sidebar = Ok out
       /\ (forall y, (1 <= y <= sb_term default_sidebar)%Z ->
             (y <= time_frame default_settings)%Z ->
             at_year (loan_payments out) y (monthly_payment default_loan * 12))
       /\ (forall y, (0 <= y < sb_term default_sidebar)%Z ->
             (y <= time_frame default_settings)%Z ->
             exists inst,
               schedule default_loan (12 * y + 1)%Z = Ok inst
               /\ balances out !! Z.to_nat y = Some (balance inst)).
Proof.
  assert (Hother :
    Qeq_bool ((1 + sb_home_loan_rate default_sidebar / 100 / 365) ^ 365 - 1)
             (sb_home_loan_rate default_sidebar / 100) = false)
    by (by vm_compute).
  assert (Hrefused :
    only_at_rate (sb_home_loan_rate default_sidebar / 100) computeSchedule
      (loan_principal default_sidebar)
      ((1 + sb_home_loan_rate default_sidebar / 100 / 365) ^ 365 - 1)
      (sb_term default_sidebar)
    = Raise InvalidParameter).
  { unfold only_at_rate. rewrite Hother. reflexivity. }
  destruct default_accepted as (Hframe & Hloan & _ & Hrows).
  assert (Hterm : (0 <= sb_term default_sidebar
                   <= time_frame default_settings + 1)%Z)
    by (split; by vm_compute).
  split; [exact Hrefused|]. split; [|split; [exact Hloan|]].
  - exact (proj1 (proj2 (loan_rate_is_daily_compounded default_settings
                           (only_at_rate
                              (sb_home_loan_rate default_sidebar / 100)
                              computeSchedule)
                           default_sidebar))
             InvalidParameter Hrefused).
  - exact (proj1 (proj2 (proj2 (loan_rate_is_daily_compounded
                                  default_settings computeSchedule
                                  default_sidebar)))
             default_loan Hloan Hframe Hterm Hrows).
Defined.

Lemma series_lengths_witness :
  accepted default_settings computeSchedule default_sidebar default_loan
  /\ exists out,
       main_with default_settings computeSchedule default_sidebar = Ok out
       /\ all_lengths out (Z.to_nat (time_frame default_settings + 1))
       /\ forall (y : nat),
            (Z.of_nat y <= time_frame default_settings)%Z <->
            (is_Some (ownership_costs out !! y)
             /\ is_Some (loan_payments out !! y)
             /\ is_Some (rent_costs out !! y)
             /\ is_Some (savings_rent_vs_buy out !! y)
             /\ is_Some (asset_values_owning out !! y)
             /\ is_Some (asset_values_renting out !! y)).
Proof.
  split; [exact default_accepted|].
  exact (series_lengths default_settings computeSchedule
           default_sidebar default_loan default_accepted).
Defined.

Lemma ownership_costs_increasing_witness :
  accepted default_settings computeSchedule default_sidebar default_loan
  /\ 0 < inflation default_settings
  /\ (0 < sb_house_price default_sidebar)%Z
  /\ (0 <= sb_strata_council_cost default_sidebar)%Z
  /\ (0 <= sb_home_insurance default_sidebar)%Z
  /\ (0 <= sb_transport_cost default_sidebar)%Z
  /\ exists out,
       main_with default_settings computeSchedule default_sidebar = Ok out
       /\ forall y, (1 <= y)%Z -> (y + 1 <= time_frame default_settings)%Z ->
            exists a b,
              ownership_costs out !! Z.to_nat y = Some a
              /\ ownership_costs out !! Z.to_nat (y + 1) = Some b
              /\ a < b.
Proof.
  assert (H1 : 0 < inflation default_settings) by reflexivity.
  assert (H2 : (0 < sb_house_price default_sidebar)%Z) by reflexivity.
  assert (H3 : (0 <= sb_strata_council_cost default_sidebar)%Z)
    by (by vm_compute).
  assert (H4 : (0 <= sb_home_insurance default_sidebar)%Z) by (by vm_compute).
  assert (H5 : (0 <= sb_transport_cost default_sidebar)%Z) by (by vm_compute).
  repeat (split; [assumption || exact default_accepted|]).
  exact (ownership_costs_increasing default_settings computeSchedule
           default_sidebar default_loan default_accepted H1 H2 H3 H4 H5).
Defined.

Lemma balance_loop_bounds_witness :
  (0 <= time_frame default_settings)%Z
  /\ computeSchedule (loan_principal default_sidebar)
       (effective_rate default_sidebar) (sb_term default_sidebar)
     = Ok default_loan
  /\ schedule_ready default_loan (sb_term default_sidebar)
  /\ (sb_term default_sidebar <= time_frame default_settings)%Z
  /\ exists out,
       main_with default_settings computeSchedule default_sidebar = Ok out
       /\ length (balances out) = Z.to_nat (time_frame default_settings + 1)
       /\ forall y : nat,
            balances out !! y =
            if decide (Z.of_nat y < sb_term default_sidebar)%Z
            then Some (balance_at default_loan (Z.of_nat y))
            else if decide (Z.of_nat y <= time_frame default_settings)%Z
                 then Some 0 else None.
Proof.
  destruct default_accepted as (Hframe & Hloan & _ & Hrows).
  assert (Hterm : (sb_term default_sidebar <= time_frame default_settings)%Z)
    by (by vm_compute).
  split; [exact Hframe|]. split; [exact Hloan|]. split; [exact Hrows|].
  split; [exact Hterm|].
  exact (proj1 balance_loop_bounds default_settings computeSchedule
           default_sidebar default_loan Hframe Hloan Hrows Hterm).
Defined.

(** * Further properties of the inputs, the run and the report *)

(** ** Powers *)

Lemma inject_Z_succ (n : nat) :
  inject_Z (Z.of_nat (S n)) == inject_Z (Z.of_nat n) + 1.
Proof. by rewrite Nat2Z.inj_succ, <- Z.add_1_r, inject_Z_plus. Qed.

Lemma Qpower_nat_succ (a : Q) (n : nat) :
  a ^ Z.of_nat (S n) == a ^ Z.of_nat n * a.
Proof.
  rewrite Nat2Z.inj_succ, <- Z.add_1_r. apply Qpower_succ. lia.
Qed.

Lemma bernoulli (x : Q) (n : nat) :
  0 <= x -> 1 + inject_Z (Z.of_nat n) * x <= (1 + x) ^ Z.of_nat n.
Proof.
  intros Hx. induction n as [|n IH].
  - change (1 + 0 * x <= 1). lra.
  - rewrite Qpower_nat_succ, inject_Z_succ.
    assert (Hn : 0 <= inject_Z (Z.of_nat n))
      by (change 0 with (inject_Z 0); rewrite <- Zle_Qle; lia).
    assert (Hstep : (1 + inject_Z (Z.of_nat n) * x) * (1 + x)
                    <= (1 + x) ^ Z.of_nat n * (1 + x))
      by (apply Qmult_le_compat_r; [exact IH | lra]).
    assert (Hsq : 0 <= inject_Z (Z.of_nat n) * (x * x))
      by (apply Qmult_le_0_compat; [exact Hn | by apply Qmult_le_0_compat]).
    lra.
Qed.

Lemma bernoulli_strict (x : Q) (n : nat) :
  0 < x -> (2 <= n)%nat -> 1 + inject_Z (Z.of_nat n) * x < (1 + x) ^ Z.of_nat n.
Proof.
  intros Hx Hn. destruct n as [|n]; [lia|].
  rewrite Qpower_nat_succ, inject_Z_succ.
  assert (H1 : 1 <= inject_Z (Z.of_nat n))
    by (change 1 with (inject_Z 1); rewrite <- Zle_Qle; lia).
  assert (Hstep : (1 + inject_Z (Z.of_nat n) * x) * (1 + x)
                  <= (1 + x) ^ Z.of_nat n * (1 + x)).
  { apply Qmult_le_compat_r; [|lra]. apply bernoulli. lra. }
  assert (Hsq : 0 < x * x) by (by apply Qmult_lt_0_compat).
  assert (Hsq' : 1 * (x * x) <= inject_Z (Z.of_nat n) * (x * x))
    by (apply Qmult_le_compat_r; [exact H1 | lra]).
  lra.
Qed.

Lemma Qpower_le_compat_base (x y : Q) (n : nat) :
  0 <= x -> x <= y -> x ^ Z.of_nat n <= y ^ Z.of_nat n.
Proof.
  intros Hx Hxy. induction n as [|n IH].
  - apply Qle_refl.
  - rewrite !Qpower_nat_succ. apply Qmult_le_compat_nonneg.
    + split; [|exact IH]. apply Qpower_0_le. exact Hx.
    + by split.
Qed.

(** ** The inputs within the widget bounds *)

Lemma valid_sidebar_bounds (sb : Sidebar) :
  valid_sidebar sb = true ->
  (300000 <= sb_house_price sb <= 5000000)%Z
  /\ (0 <= sb_deposit_pct sb <= 100)%Z
  /\ (5 <= sb_term sb <= 30)%Z
  /\ 1 <= sb_home_loan_rate sb <= 10
  /\ (0 <= sb_strata_council_cost sb <= 10000)%Z
  /\ (0 <= sb_home_insurance sb <= 2000)%Z
  /\ (0 <= sb_transport_cost sb <= 1000)%Z
  /\ (100 <= sb_weekly_rent sb <= 5000)%Z.
Proof.
  intros Hv. unfold valid_sidebar in Hv.
  repeat (apply andb_prop in Hv; destruct Hv as [Hv ?]).
  repeat match goal with
         | H : (_ <=? _)%Z = true |- _ => apply Z.leb_le in H
         | H : Qle_bool _ _ = true |- _ => apply Qle_bool_iff in H
         end.
  repeat split; assumption.
Qed.

(** X1: the interest rate [read_loan_inputs] returns is never below the
    nominal rate entered, and above it as soon as the nominal rate is
    positive; within the bounds of the rate widget (1 to 10 percent) it
    stays below 10.52 percent. *)
Theorem daily_compounding_bounds (sb : Sidebar) :
  (0 <= sb_home_loan_rate sb ->
   sb_home_loan_rate sb / 100 <= (read_loan_inputs sb).2)
  /\ (0 < sb_home_loan_rate sb ->
      sb_home_loan_rate sb / 100 < (read_loan_inputs sb).2)
  /\ (1 <= sb_home_loan_rate sb <= 10 ->
      (read_loan_inputs sb).2 < 1052 # 10000).
Proof.
  cbn [read_loan_inputs snd].
  assert (H365 : forall x : Q,
            inject_Z (Z.of_nat 365) * (x / 100 / 365) == x / 100)
    by (intros x; change (inject_Z (Z.of_nat 365)) with 365; field).
  split; [|split].
  - intros Hr.
    assert (Hx : 0 <= sb_home_loan_rate sb / 100 / 365).
    { unfold Qdiv. rewrite <- Qmult_assoc.
      apply Qmult_le_0_compat; [exact Hr | by vm_compute]. }
    pose proof (bernoulli _ 365 Hx) as Hb. rewrite H365 in Hb.
    change (Z.of_nat 365) with 365%Z in Hb.
    remember ((1 + sb_home_loan_rate sb / 100 / 365) ^ 365) as p eqn:Ep.
    clear Ep. lra.
  - intros Hr.
    assert (Hx : 0 < sb_home_loan_rate sb / 100 / 365).
    { unfold Qdiv. rewrite <- Qmult_assoc.
      apply Qmult_lt_0_compat; [exact Hr | reflexivity]. }
    pose proof (bernoulli_strict _ 365 Hx ltac:(lia)) as Hb.
    rewrite H365 in Hb. change (Z.of_nat 365) with 365%Z in Hb.
    remember ((1 + sb_home_loan_rate sb / 100 / 365) ^ 365) as p eqn:Ep.
    clear Ep. lra.
  - intros [Hlo Hhi].
    assert (Hbase : 1 + sb_home_loan_rate sb / 100 / 365
                    <= 1 + 10 / 100 / 365).
    { assert (sb_home_loan_rate sb / 100 / 365 <= 10 / 100 / 365); [|lra].
      unfold Qdiv. rewrite <- !Qmult_assoc.
      apply Qmult_le_compat_r; [exact Hhi | by vm_compute]. }
    assert (Hpos : 0 <= 1 + sb_home_loan_rate sb / 100 / 365).
    { assert (0 <= sb_home_loan_rate sb / 100 / 365); [|lra].
      unfold Qdiv. rewrite <- Qmult_assoc.
      apply Qmult_le_0_compat; [lra | by vm_compute]. }
    pose proof (Qpower_le_compat_base _ _ 365 Hpos Hbase) as Hpow.
    change (Z.of_nat 365) with 365%Z in Hpow.
    assert (Htop : (1 + 10 / 100 / 365) ^ 365 - 1 < 1052 # 10000)
      by (by vm_compute).
    remember ((1 + sb_home_loan_rate sb / 100 / 365) ^ 365) as p eqn:Ep.
    remember ((1 + 10 / 100 / 365) ^ 365) as q eqn:Eq.
    clear Ep Eq Hbase Hpos. lra.
Qed.

(** X2: within the bounds of the widgets the principal handed to the
    loan constructor lies between zero and the house price, and it is
    zero exactly when the deposit slider stands at 100 percent. *)
Theorem principal_within_price (sb : Sidebar) :
  valid_sidebar sb = true ->
  0 <= loan_principal sb <= inject_Z (sb_house_price sb)
  /\ (loan_principal sb == 0 <-> sb_deposit_pct sb = 100%Z).
Proof.
  intros Hv. apply valid_sidebar_bounds in Hv
    as (Hprice & Hdep & _).
  unfold loan_principal, deposit_amt.
  assert (Hp : 0 < inject_Z (sb_house_price sb))
    by (change 0 with (inject_Z 0); rewrite <- Zlt_Qlt; lia).
  assert (Hd0 : 0 <= inject_Z (sb_deposit_pct sb))
    by (change 0 with (inject_Z 0); rewrite <- Zle_Qle; lia).
  assert (Hd1 : inject_Z (sb_deposit_pct sb) <= 100)
    by (change 100 with (inject_Z 100); rewrite <- Zle_Qle; lia).
  assert (Hf0 : 0 <= inject_Z (sb_deposit_pct sb) / 100)
    by (apply Qle_shift_div_l; lra).
  assert (Hf1 : inject_Z (sb_deposit_pct sb) / 100 <= 1)
    by (apply Qle_shift_div_r; lra).
  assert (Hkeep : 0 <= inject_Z (sb_house_price sb)
                       * (1 - inject_Z (sb_deposit_pct sb) / 100))
    by (apply Qmult_le_0_compat; lra).
  assert (Hpaid : 0 <= inject_Z (sb_house_price sb)
                       * (inject_Z (sb_deposit_pct sb) / 100))
    by (apply Qmult_le_0_compat; lra).
  split; [split; lra|]. split.
  - intros Hzero.
    destruct (decide (sb_deposit_pct sb = 100%Z)) as [|Hne]; [done|].
    exfalso.
    assert (Hlt : inject_Z (sb_deposit_pct sb) < 100)
      by (change 100 with (inject_Z 100); rewrite <- Zlt_Qlt; lia).
    assert (Hx : inject_Z (sb_deposit_pct sb) / 100 < 1)
      by (apply Qlt_shift_div_r; lra).
    assert (Hprod : 0 < inject_Z (sb_house_price sb)
                        * (1 - inject_Z (sb_deposit_pct sb) / 100))
      by (apply Qmult_lt_0_compat; lra).
    lra.
  - intros ->. change (inject_Z 100 / 100) with (100 / 100). field.
Qed.

(** ** Where a run can fail *)

Lemma rows_first_failure (home_loan : Loan) (k : nat) :
  forall a : nat,
    (forall i, (a <= i < a + k)%nat ->
       exists inst, schedule home_loan (12 * Z.of_nat i + 1)%Z = Ok inst)
    \/ (exists i e,
          (a <= i < a + k)%nat
          /\ schedule home_loan (12 * Z.of_nat i + 1)%Z = Raise e
          /\ forall j, (a <= j < i)%nat ->
               exists inst,
                 schedule home_loan (12 * Z.of_nat j + 1)%Z = Ok inst).
Proof.
  induction k as [|k IH]; intros a.
  - left. intros i Hi. lia.
  - destruct (schedule home_loan (12 * Z.of_nat a + 1)%Z) as [inst|e] eqn:Ha.
    2:{ right. exists a, e. split; [lia|]. split; [exact Ha|].
        intros j Hj. lia. }
    destruct (IH (S a)) as [Hall | (i & e & Hi & He & Hbefore)].
    + left. intros i Hi. destruct (decide (i = a)) as [->|Hne].
      * by exists inst.
      * apply Hall. lia.
    + right. exists i, e. split; [lia|]. split; [exact He|].
      intros j Hj. destruct (decide (j = a)) as [->|Hne].
      * by exists inst.
      * apply Hbefore. lia.
Qed.

Lemma balances_loop_first_failure (home_loan : Loan) (k : nat) :
  forall (a : nat) (b : Series) (i : nat) (e : exn),
    (a <= i < a + k)%nat ->
    (i <= length b)%nat ->
    (forall j, (a <= j < i)%nat ->
       exists inst, schedule home_loan (12 * Z.of_nat j + 1)%Z = Ok inst) ->
    schedule home_loan (12 * Z.of_nat i + 1)%Z = Raise e ->
    balances_loop home_loan (Z.of_nat <$> seq a k) b = Raise e.
Proof.
  induction k as [|k IH]; intros a b i e Hi Hlen Hbefore He; [lia|].
  cbn [seq fmap list_fmap balances_loop].
  destruct (decide (a = i)) as [->|Hne].
  - by rewrite He.
  - destruct (Hbefore a) as [inst Hinst]; [lia|].
    rewrite Hinst, result_bind_Ok.
    rewrite iloc_set_nat, result_bind_Ok by lia.
    apply (IH (S a) _ i e); [lia | | | exact He].
    + rewrite length_insert. lia.
    + intros j Hj. apply Hbefore. lia.
Qed.

(** X3: with the constants of [main] and a sidebar within the bounds of
    the widgets, [main] never fails in its own indexing, whatever the
    loan class: it returns every series with 51 entries, or it ends
    with the exception of the loan constructor, or with the exception
    the loan raises for the row [12*y + 1] of a year [y] of the term. *)
Theorem main_within_widget_bounds (Loan_ : LoanClass) (sb : Sidebar) :
  valid_sidebar sb = true ->
  (exists out, main Loan_ sb = Ok out /\ all_lengths out 51)
  \/ (exists e,
        Loan_ (loan_principal sb) (effective_rate sb) (sb_term sb) = Raise e
        /\ main Loan_ sb = Raise e)
  \/ (exists home_loan y e,
        Loan_ (loan_principal sb) (effective_rate sb) (sb_term sb)
        = Ok home_loan
        /\ (0 <= y < sb_term sb)%Z
        /\ schedule home_loan (12 * y + 1)%Z = Raise e
        /\ main Loan_ sb = Raise e).
Proof.
  intros Hv. apply valid_sidebar_bounds in Hv as (_ & _ & Hterm & _).
  unfold main.
  destruct (Loan_ (loan_principal sb) (effective_rate sb) (sb_term sb))
    as [home_loan|e] eqn:Hloan.
  2:{ right. left. exists e. split; [reflexivity|].
      by apply main_with_refused. }
  destruct (rows_first_failure home_loan (Z.to_nat (sb_term sb)) 0)
    as [Hrows | (i & e & Hi & He & Hbefore)].
  - left. apply (run_lengths default_settings Loan_ sb home_loan).
    unfold accepted. cbn [time_frame default_settings].
    split; [lia|]. split; [exact Hloan|]. split; [lia|].
    intros year Hyear. destruct (Hrows (Z.to_nat year)) as [inst Hinst];
      [lia|]. rewrite Z2Nat.id in Hinst by lia. by exists inst.
  - right. right. exists home_loan, (Z.of_nat i), e.
    split; [reflexivity|]. split; [lia|]. split; [exact He|].
    rewrite (main_with_granted default_settings Loan_ sb home_loan)
      by (done || by vm_compute).
    unfold np_arange.
    rewrite (balances_loop_first_failure home_loan _ 0 _ i e);
      [reflexivity | lia | | exact Hbefore | exact He].
    rewrite length_replicate. cbn [time_frame default_settings]. lia.
Qed.

(** X4: whatever the inputs, as long as the horizon is not negative, a
    run of [main_with] that fails carries the exception of the loan
    constructor, or the exception the loan raises for a row
    [12*y + 1] with [0 <= y < termYears], or IndexError with
    [termYears > horizon + 1]: the label accesses of the portfolio
    loop and the other positional writes never fail. *)
Theorem main_with_failures (cfg : Settings) (Loan_ : LoanClass) (sb : Sidebar)
    (e : exn) :
  (0 <= time_frame cfg)%Z ->
  main_with cfg Loan_ sb = Raise e ->
  Loan_ (loan_principal sb) (effective_rate sb) (sb_term sb) = Raise e
  \/ exists home_loan,
       Loan_ (loan_principal sb) (effective_rate sb) (sb_term sb)
       = Ok home_loan
       /\ ((exists y, (0 <= y < sb_term sb)%Z
                      /\ schedule home_loan (12 * y + 1)%Z = Raise e)
           \/ (e = IndexError /\ (time_frame cfg + 1 < sb_term sb)%Z)).
Proof.
  intros Hframe Hrun.
  destruct (Loan_ (loan_principal sb) (effective_rate sb) (sb_term sb))
    as [home_loan|e'] eqn:Hloan.
  2:{ left. rewrite (main_with_refused cfg Loan_ sb e' Hloan) in Hrun.
      congruence. }
  right. exists home_loan. split; [reflexivity|].
  destruct (rows_first_failure home_loan (Z.to_nat (sb_term sb)) 0)
    as [Hrows | (i & e' & Hi & He & Hbefore)].
  - assert (Hready : schedule_ready home_loan (sb_term sb)).
    { intros year Hyear. destruct (Hrows (Z.to_nat year)) as [inst Hinst];
        [lia|]. rewrite Z2Nat.id in Hinst by lia. by exists inst. }
    destruct (Z_le_gt_dec (sb_term sb) (time_frame cfg + 1)) as [Hfit|Hover].
    + destruct (run_lengths cfg Loan_ sb home_loan) as (out & Hok & _).
      { by repeat split. }
      congruence.
    + right. rewrite (main_with_IndexError cfg Loan_ sb home_loan) in Hrun
        by (done || lia).
      split; [congruence | lia].
  - destruct (decide (i <= S (Z.to_nat (time_frame cfg)))%nat) as [Hin|Hout].
    + left. exists (Z.of_nat i). split; [lia|].
      rewrite (main_with_granted cfg Loan_ sb home_loan Hframe Hloan) in Hrun.
      unfold np_arange in Hrun.
      rewrite (balances_loop_first_failure home_loan _ 0 _ i e') in Hrun;
        [ | lia | by rewrite length_replicate | exact Hbefore | exact He].
      cbn in Hrun. congruence.
    + right.
      rewrite (main_with_granted cfg Loan_ sb home_loan Hframe Hloan) in Hrun.
      unfold np_arange in Hrun.
      rewrite balances_loop_IndexError in Hrun.
      * cbn in Hrun. split; [congruence | lia].
      * rewrite length_replicate. lia.
      * intros j Hj. rewrite length_replicate in Hj. apply Hbefore. lia.
Qed.

(** ** The rent series over the years *)

Lemma raw_rent_monotone (w r : Q) (i j : nat) :
  0 <= w -> 0 <= r -> (i <= j)%nat ->
  match i with O => 0 | S _ => w end * (1 + r) ^ Z.of_nat i
  <= match j with O => 0 | S _ => w end * (1 + r) ^ Z.of_nat j.
Proof.
  intros Hw Hr Hij.
  assert (Hpow : forall k : nat, 0 <= (1 + r) ^ Z.of_nat k)
    by (intros k; apply Qpower_0_le; lra).
  destruct i as [|i].
  - rewrite Qmult_0_l. destruct j as [|j].
    + rewrite Qmult_0_l. apply Qle_refl.
    + by apply Qmult_le_0_compat.
  - destruct j as [|j]; [lia|].
    rewrite !(Qmult_comm w). apply Qmult_le_compat_r; [|exact Hw].
    apply Qpower_le_compat_l; [lia | lra].
Qed.

(** X5: when neither the rent inflation nor the weekly rent is negative,
    the rent cost never falls from one year to a later one, and once a
    year's rent cost stands at the cap [max_rent], so does the rent
    cost of every later year. *)
Theorem rent_costs_never_fall (cfg : Settings) (Loan_ : LoanClass)
    (sb : Sidebar) (home_loan : Loan) :
  accepted cfg Loan_ sb home_loan ->
  0 <= rent_inflation cfg ->
  (0 <= sb_weekly_rent sb)%Z ->
  exists out,
    main_with cfg Loan_ sb = Ok out
    /\ forall y1 y2, (0 <= y1 <= y2)%Z -> (y2 <= time_frame cfg)%Z ->
         exists x1 x2,
           rent_costs out !! Z.to_nat y1 = Some x1
           /\ rent_costs out !! Z.to_nat y2 = Some x2
           /\ x1 <= x2
           /\ (x1 == max_rent cfg -> x2 == max_rent cfg).
Proof.
  intros Hacc Hinfl Hrent.
  destruct (accepted_run _ _ _ _ Hacc) as (bal & renting & Hrun & _).
  destruct Hacc as (Hframe & _).
  eexists. split; [exact Hrun|]. cbn [rent_costs].
  intros y1 y2 Hy Hy2.
  destruct (lookup_rent_costs cfg sb (Z.to_nat y1)) as (x1 & Hx1 & Hv1);
    [done | lia |].
  destruct (lookup_rent_costs cfg sb (Z.to_nat y2)) as (x2 & Hx2 & Hv2);
    [done | lia |].
  exists x1, x2. split; [exact Hx1|]. split; [exact Hx2|].
  assert (Hw : 0 <= inject_Z (sb_weekly_rent sb * 52))
    by (change 0 with (inject_Z 0); rewrite <- Zle_Qle; lia).
  assert (Hle : x1 <= x2).
  { rewrite Hv1, Hv2. apply Q.min_le_compat_r.
    apply raw_rent_monotone; [exact Hw | exact Hinfl | lia]. }
  split; [exact Hle|].
  intros Hcap. apply Qle_antisym.
  - rewrite Hv2. apply Q.le_min_r.
  - by rewrite <- Hcap.
Qed.

(** ** The portfolio as a sum *)

Lemma sum_upto_ext (f g : nat -> Q) (n : nat) :
  (forall k, (k <= n)%nat -> f k == g k) -> sum_upto f n == sum_upto g n.
Proof.
  induction n as [|n IH]; intros Hfg; cbn [sum_upto].
  - apply Hfg. lia.
  - rewrite IH by (intros k Hk; apply Hfg; lia).
    by rewrite (Hfg (S n)) by lia.
Qed.

Lemma sum_upto_scale (f : nat -> Q) (c : Q) (n : nat) :
  sum_upto f n * c == sum_upto (fun k => f k * c) n.
Proof.
  induction n as [|n IH]; cbn [sum_upto]; [reflexivity|].
  rewrite <- IH. ring.
Qed.

Lemma compounding_sum (r : Q) (savings renting : Series) (n : nat) :
  (exists s, savings !! 0%nat = Some s
             /\ renting !! 0%nat = Some (0 * (1 + r) + s)) ->
  (forall i, (S i < S n)%nat ->
     exists x s, renting !! i = Some x /\ savings !! S i = Some s
                 /\ renting !! S i = Some (x * (1 + r) + s)) ->
  forall y, (y <= n)%nat ->
    exists v,
      renting !! y = Some v
      /\ v == sum_upto
                (fun k => entry savings k * (1 + r) ^ Z.of_nat (y - k)) y.
Proof.
  intros (s0 & Hs0 & Hr0) Hrec y. induction y as [|y IH]; intros Hy.
  - eexists. split; [exact Hr0|]. cbn [sum_upto]. unfold entry.
    rewrite Hs0. cbn [default from_option id Nat.sub].
    change ((1 + r) ^ Z.of_nat 0) with 1. ring.
  - destruct IH as (v & Hv & Hsum); [lia|].
    destruct (Hrec y) as (x & s & Hx & Hs & Hnext); [lia|].
    rewrite Hv in Hx. injection Hx as <-.
    eexists. split; [exact Hnext|]. cbn [sum_upto].
    rewrite Hsum, sum_upto_scale. unfold entry at 3. rewrite Hs.
    cbn [default from_option id]. rewrite Nat.sub_diag.
    change ((1 + r) ^ Z.of_nat 0) with 1. rewrite Qmult_1_r.
    apply Qplus_comp; [|reflexivity].
    apply sum_upto_ext. intros k Hk. cbv beta.
    replace (S y - k)%nat with (S (y - k)) by lia.
    rewrite Qpower_nat_succ. ring.
Qed.

Lemma py_getitem_last {A : Type} (l : list A) (n : nat) (x : A) :
  length l = S n -> l !! n = Some x -> py_getitem l (-1) = Ok x.
Proof.
  intros Hlen Hx. unfold py_getitem. rewrite Hlen.
  destruct (Z.ltb_spec (-1) 0); [|lia].
  destruct (Z.leb_spec 0 (-1 + Z.of_nat (S n))); [|lia].
  destruct (Z.ltb_spec (-1 + Z.of_nat (S n)) (Z.of_nat (S n))); [|lia].
  cbn [andb]. replace (Z.to_nat (-1 + Z.of_nat (S n))) with n by lia.
  by rewrite Hx.
Qed.

(** X6: the portfolio of the rent scenario is the sum of the expense
    differences so far, each compounded at the portfolio return from its
    own year on: in year [y] it holds
    [sum over k <= y of savings[k] * (1 + portfolioReturn)^(y - k)]. *)
Theorem asset_values_renting_as_sum (cfg : Settings) (Loan_ : LoanClass)
    (sb : Sidebar) (home_loan : Loan) :
  accepted cfg Loan_ sb home_loan ->
  exists out,
    main_with cfg Loan_ sb = Ok out
    /\ forall y : nat, (Z.of_nat y <= time_frame cfg)%Z ->
         exists v,
           asset_values_renting out !! y = Some v
           /\ v == sum_upto
                     (fun k => entry (savings_rent_vs_buy out) k
                               * (1 + portfolio_return_of cfg sb)
                                 ^ Z.of_nat (y - k)) y.
Proof.
  intros Hacc.
  destruct (accepted_run _ _ _ _ Hacc)
    as (bal & renting & Hrun & _ & _ & _ & Hfirst & Hrec).
  eexists. split; [exact Hrun|].
  cbn [asset_values_renting savings_rent_vs_buy].
  intros y Hy.
  apply (compounding_sum _ _ _ (Z.to_nat (time_frame cfg)) Hfirst Hrec).
  lia.
Qed.

(** X7: when the loan term ends within the horizon, the wealth
    difference the page reports is the house price compounded at the
    property return over the whole horizon, with no loan balance left
    to subtract, minus the compounded sum of the expense differences. *)
Theorem wealth_difference_at_horizon (cfg : Settings) (Loan_ : LoanClass)
    (sb : Sidebar) (home_loan : Loan) :
  accepted cfg Loan_ sb home_loan ->
  (sb_term sb <= time_frame cfg)%Z ->
  exists out w,
    main_with cfg Loan_ sb = Ok out
    /\ wealth_difference out = Ok w
    /\ w == inject_Z (sb_house_price sb)
            * (1 + property_return_of cfg sb) ^ time_frame cfg
            - sum_upto
                (fun k => entry (savings_rent_vs_buy out) k
                          * (1 + portfolio_return_of cfg sb)
                            ^ Z.of_nat (Z.to_nat (time_frame cfg) - k))
                (Z.to_nat (time_frame cfg)).
Proof.
  intros Hacc Hterm.
  destruct (accepted_run _ _ _ _ Hacc)
    as (bal & renting & Hrun & Hbal_len & Hbal & Hrent_len & Hfirst & Hrec).
  destruct Hacc as (Hframe & _).
  set (n := Z.to_nat (time_frame cfg)) in *.
  destruct (compounding_sum _ _ _ n Hfirst Hrec n) as (v & Hv & Hsum); [lia|].
  destruct (lookup_property_growth cfg sb n) as (g & Hg & Hgv); [subst n; lia|].
  assert (Hb : bal !! n = Some 0).
  { rewrite Hbal. destruct (decide _); [lia|].
    apply lookup_replicate_2. lia. }
  eexists. exists (g - 0 - v). split; [exact Hrun|].
  cbn [savings_rent_vs_buy]. split.
  - assert (Hown : py_getitem (series_sub (property_growth_run cfg sb) bal)
                     (-1) = Ok (g - 0)).
    { apply (py_getitem_last _ n); unfold series_sub.
      - rewrite length_zip_with, length_property_growth. fold n. lia.
      - by rewrite lookup_zip_with, Hg, Hb. }
    unfold wealth_difference. cbn [asset_values_owning asset_values_renting].
    by rewrite Hown, result_bind_Ok, (py_getitem_last _ n v), result_bind_Ok.
  - rewrite Hgv, Hsum. subst n. rewrite Z2Nat.id by lia. ring.
Qed.

(** ** The last year with savings *)

Lemma positive_labels_from_nil (s : Series) :
  forall a, positive_labels_from a s = []
            <-> forall i x, s !! i = Some x -> x <= 0.
Proof.
  induction s as [|x rest IH]; intros a; cbn [positive_labels_from].
  - split; [|done]. intros _ i y Hy. by rewrite lookup_nil in Hy.
  - destruct (Qle_bool x 0) eqn:E.
    + rewrite IH. apply Qle_bool_iff in E. split.
      * intros Hrest [|i] y Hy; [by injection Hy as <-|].
        by apply (Hrest i).
      * intros Hall i y Hy. by apply (Hall (S i)).
    + split; [discriminate|]. intros Hall. exfalso.
      assert (Hx : x <= 0) by (by apply (Hall 0%nat)).
      apply Qle_bool_iff in Hx. congruence.
Qed.

Lemma last_positive_labels_from (s : Series) :
  forall a z,
    last (positive_labels_from a s) = Some z ->
    exists i x,
      z = (a + Z.of_nat i)%Z /\ s !! i = Some x /\ 0 < x
      /\ forall j x', (i < j)%nat -> s !! j = Some x' -> x' <= 0.
Proof.
  induction s as [|x rest IH]; intros a z; cbn [positive_labels_from].
  - discriminate.
  - destruct (Qle_bool x 0) eqn:E.
    + intros Hlast. destruct (IH _ _ Hlast) as (i & y & -> & Hy & Hpos & Hlater).
      exists (S i), y. split; [lia|]. split; [exact Hy|]. split; [exact Hpos|].
      intros [|j] x' Hj Hx'; [lia|]. apply (Hlater j); [lia | exact Hx'].
    + assert (Hx : 0 < x).
      { apply Qnot_le_lt. intros Hle. apply Qle_bool_iff in Hle. congruence. }
      destruct (positive_labels_from (a + 1) rest) as [|z' more] eqn:Hrest.
      * intros [= <-]. exists 0%nat, x. split; [lia|]. split; [done|].
        split; [exact Hx|].
        intros [|j] x' Hj Hx'; [lia|].
        by apply (proj1 (positive_labels_from_nil rest (a + 1)) Hrest j).
      * rewrite last_cons_cons. intros Hlast.
        destruct (IH (a + 1)%Z z) as (i & y & -> & Hy & Hpos & Hlater).
        { by rewrite Hrest. }
        exists (S i), y. split; [lia|]. split; [exact Hy|].
        split; [exact Hpos|].
        intros [|j] x' Hj Hx'; [lia|]. apply (Hlater j); [lia | exact Hx'].
Qed.

Lemma py_getitem_minus1 {A : Type} (l : list A) :
  py_getitem l (-1) = match last l with
                      | Some x => Ok x
                      | None => Raise IndexError
                      end.
Proof.
  destruct (last l) as [x|] eqn:Hlast.
  - rewrite last_lookup in Hlast.
    destruct l as [|y l]; [done|].
    by apply (py_getitem_last _ (length l)).
  - apply last_None in Hlast. by subst l.
Qed.

(** X8: the figure [years_with_savings[-1]] is the last year whose
    expense difference is positive: every later year's is zero or
    negative.  It fails, with IndexError and nothing else, exactly when
    no year has a positive expense difference. *)
Theorem last_year_with_savings_spec (out : Projection) :
  (last_year_with_savings out = Raise IndexError
   <-> forall i x, savings_rent_vs_buy out !! i = Some x -> x <= 0)
  /\ (forall y, last_year_with_savings out = Ok y ->
        (0 <= y)%Z
        /\ exists x,
             savings_rent_vs_buy out !! Z.to_nat y = Some x /\ 0 < x
             /\ forall j x', (Z.to_nat y < j)%nat ->
                  savings_rent_vs_buy out !! j = Some x' -> x' <= 0)
  /\ (forall e, last_year_with_savings out = Raise e -> e = IndexError).
Proof.
  unfold last_year_with_savings, years_with_savings, positive_labels.
  rewrite py_getitem_minus1.
  destruct (last (positive_labels_from 0 (savings_rent_vs_buy out)))
    as [z|] eqn:Hlast.
  - apply last_positive_labels_from in Hlast
      as (i & x & -> & Hx & Hpos & Hlater).
    split; [|split].
    + split; [discriminate|]. intros Hall. exfalso.
      pose proof (Hall i x Hx). lra.
    + intros y [= <-]. split; [lia|]. exists x.
      replace (Z.to_nat (0 + Z.of_nat i)) with i by lia. by repeat split.
    + discriminate.
  - apply last_None in Hlast. split; [|split].
    + split; [|done]. intros _. by apply (positive_labels_from_nil _ 0).
    + discriminate.
    + congruence.
Qed.

Lemma savings_run_0 (cfg : Settings) (sb : Sidebar) (home_loan : Loan) :
  (0 <= time_frame cfg)%Z -> 0 <= max_rent cfg ->
  exists s, savings_run cfg sb home_loan !! 0%nat = Some s
            /\ s == deposit_amt sb.
Proof.
  intros Hframe Hcap.
  destruct (lookup_lt_is_Some_2 (savings_run cfg sb home_loan) 0) as [s Hs].
  { rewrite length_savings by done. lia. }
  exists s. split; [exact Hs|].
  destruct (lookup_savings _ _ _ _ _ Hs) as (o & l & r & Ho & Hl & Hrc & ->).
  rewrite lookup_ownership_costs in Ho by (done || lia).
  rewrite lookup_loan_payments_0 in Hl.
  destruct (lookup_rent_costs cfg sb 0) as (x & Hx & Hv); [done|lia|].
  rewrite Hx in Hrc. injection Ho as <-. injection Hl as <-.
  injection Hrc as <-. rewrite Hv, Q.min_l; [ring|].
  change (Z.of_nat 0) with 0%Z. rewrite Qmult_0_l. exact Hcap.
Qed.

(** X9: whenever a deposit is paid (a positive house price and deposit
    percentage, a rent cap that is not negative), year 0 has a positive
    expense difference, so both figures of the report are computed and
    the year reported lies within the horizon. *)
Theorem report_with_deposit (cfg : Settings) (Loan_ : LoanClass)
    (sb : Sidebar) (home_loan : Loan) :
  accepted cfg Loan_ sb home_loan ->
  0 <= max_rent cfg ->
  (0 < sb_house_price sb)%Z ->
  (0 < sb_deposit_pct sb)%Z ->
  exists years difference,
    report_with cfg Loan_ sb = Ok (years, difference)
    /\ (0 <= years <= time_frame cfg)%Z.
Proof.
  intros Hacc Hcap Hprice Hdep.
  destruct (accepted_run _ _ _ _ Hacc)
    as (bal & renting & Hrun & Hbal_len & _ & Hrent_len & _).
  destruct Hacc as (Hframe & _).
  destruct (savings_run_0 cfg sb home_loan Hframe Hcap) as (s0 & Hs0 & Hv0).
  assert (Hpos : 0 < s0).
  { rewrite Hv0. unfold deposit_amt.
    apply Qmult_lt_0_compat.
    - change 0 with (inject_Z 0). rewrite <- Zlt_Qlt. lia.
    - apply Qlt_shift_div_l; [reflexivity|]. rewrite Qmult_0_l.
      change 0 with (inject_Z 0). rewrite <- Zlt_Qlt. lia. }
  destruct (last (positive_labels_from 0 (savings_run cfg sb home_loan)))
    as [z|] eqn:Hlast.
  2:{ apply last_None in Hlast.
      pose proof (proj1 (positive_labels_from_nil _ 0) Hlast 0%nat s0 Hs0).
      lra. }
  pose proof Hlast as Hz.
  apply last_positive_labels_from in Hz as (i & x & -> & Hx & _).
  apply lookup_lt_Some in Hx. rewrite length_savings in Hx by done.
  destruct (lookup_lt_is_Some_2 (series_sub (property_growth_run cfg sb) bal)
              (Z.to_nat (time_frame cfg))) as [own Hown].
  { unfold series_sub.
    rewrite length_zip_with, length_property_growth, Hbal_len. lia. }
  destruct (lookup_lt_is_Some_2 renting (Z.to_nat (time_frame cfg)))
    as [rent Hrent]; [lia|].
  exists (0 + Z.of_nat i)%Z, (own - rent). split; [|lia].
  unfold report_with. rewrite Hrun, result_bind_Ok.
  unfold last_year_with_savings, years_with_savings, positive_labels.
  cbn [savings_rent_vs_buy]. rewrite py_getitem_minus1, Hlast, result_bind_Ok.
  assert (Hget : py_getitem (series_sub (property_growth_run cfg sb) bal) (-1)
                 = Ok own).
  { apply (py_getitem_last _ (Z.to_nat (time_frame cfg))); [|exact Hown].
    unfold series_sub.
    rewrite length_zip_with, length_property_growth, Hbal_len. lia. }
  unfold wealth_difference. cbn [asset_values_owning asset_values_renting].
  rewrite Hget, result_bind_Ok.
  by rewrite (py_getitem_last _ (Z.to_nat (time_frame cfg)) rent).
Qed.

(** X10: with no deposit, a first-year rent at or above the cap, and
    ownership cost and loan payments that together never exceed the
    cap, no year has a positive expense difference: the projection
    completes, and the report fails with IndexError on
    [years_with_savings[-1]]. *)
Theorem report_without_savings (cfg : Settings) (Loan_ : LoanClass)
    (sb : Sidebar) (home_loan : Loan) :
  accepted cfg Loan_ sb home_loan ->
  sb_deposit_pct sb = 0%Z ->
  0 <= inflation cfg ->
  0 <= rent_inflation cfg ->
  (0 <= sb_term sb)%Z ->
  0 <= total_ownership_cost sb ->
  0 <= monthly_payment home_loan ->
  max_rent cfg <= inject_Z (sb_weekly_rent sb * 52) ->
  total_ownership_cost sb * (1 + inflation cfg) ^ time_frame cfg
  + monthly_payment home_loan * 12 <= max_rent cfg ->
  exists out,
    main_with cfg Loan_ sb = Ok out
    /\ last_year_with_savings out = Raise IndexError
    /\ report_with cfg Loan_ sb = Raise IndexError.
Proof.
  intros Hacc Hdep Hinfl Hrinfl Hterm Htotal Hpay Hrent Hsum.
  destruct (accepted_run _ _ _ _ Hacc) as (bal & renting & Hrun & _).
  destruct Hacc as (Hframe & _).
  assert (Hgrow : 0 <= total_ownership_cost sb
                       * (1 + inflation cfg) ^ time_frame cfg).
  { apply Qmult_le_0_compat; [exact Htotal|]. apply Qpower_0_le. lra. }
  assert (Hcap : 0 <= max_rent cfg) by lra.
  assert (Hnone : forall i x,
            savings_run cfg sb home_loan !! i = Some x -> x <= 0).
  { intros i x Hx. pose proof (lookup_lt_Some _ _ _ Hx) as Hi.
    rewrite length_savings in Hi by done.
    destruct (lookup_savings _ _ _ _ _ Hx) as (o & l & r & Ho & Hl & Hr & ->).
    rewrite lookup_ownership_costs in Ho by (done || lia).
    rewrite lookup_loan_payments in Hl by (done || lia).
    destruct (lookup_rent_costs cfg sb i) as (r' & Hr' & Hv); [done|lia|].
    rewrite Hr' in Hr. injection Ho as <-. injection Hl as <-.
    injection Hr as <-. rewrite Hv. destruct i as [|i].
    - unfold deposit_amt. rewrite Hdep, Q.min_l.
      + change (inject_Z 0) with 0. change (Z.of_nat 0) with 0%Z.
        rewrite !Qmult_0_l. unfold Qdiv. rewrite Qmult_0_l, Qmult_0_r. lra.
      + change (Z.of_nat 0) with 0%Z. rewrite Qmult_0_l. exact Hcap.
    - assert (Hown : total_ownership_cost sb
                     * (1 + inflation cfg) ^ Z.of_nat (S i)
                     <= total_ownership_cost sb
                        * (1 + inflation cfg) ^ time_frame cfg).
      { rewrite !(Qmult_comm (total_ownership_cost sb)).
        apply Qmult_le_compat_r; [|exact Htotal].
        apply Qpower_le_compat_l; [lia | lra]. }
      assert (Hone : 1 <= (1 + rent_inflation cfg) ^ Z.of_nat (S i))
        by (apply Qpower_1_le; [lra | lia]).
      assert (Hraw : max_rent cfg
                     <= inject_Z (sb_weekly_rent sb * 52)
                        * (1 + rent_inflation cfg) ^ Z.of_nat (S i)).
      { assert (Hw : 0 <= inject_Z (sb_weekly_rent sb * 52)) by lra.
        assert (Hmore : inject_Z (sb_weekly_rent sb * 52) * 1
                        <= inject_Z (sb_weekly_rent sb * 52)
                           * (1 + rent_inflation cfg) ^ Z.of_nat (S i)).
        { rewrite !(Qmult_comm (inject_Z (sb_weekly_rent sb * 52))).
          by apply Qmult_le_compat_r. }
        lra. }
      rewrite Q.min_r by exact Hraw.
      destruct (decide _); lra. }
  assert (Hlast : last_year_with_savings
                    {| ownership_costs := ownership_costs_run cfg sb;
                       loan_payments := loan_payments_run cfg sb home_loan;
                       rent_costs := rent_costs_run cfg sb;
                       savings_rent_vs_buy := savings_run cfg sb home_loan;
                       balances := bal;
                       asset_values_owning :=
                         series_sub (property_growth_run cfg sb) bal;
                       asset_values_renting := renting |}
                  = Raise IndexError).
  { unfold last_year_with_savings, years_with_savings, positive_labels.
    cbn [savings_rent_vs_buy].
    by rewrite (proj2 (positive_labels_from_nil _ 0) Hnone). }
  eexists. split; [exact Hrun|]. split; [exact Hlast|].
  unfold report_with. by rewrite Hrun, result_bind_Ok, Hlast.
Qed.

(** ** The loan payments in total *)

Lemma series_total_replicate (n : nat) (v : Q) :
  series_total (replicate n v) == inject_Z (Z.of_nat n) * v.
Proof.
  unfold series_total. induction n as [|n IH].
  - cbn. ring.
  - cbn [replicate foldr]. rewrite IH, inject_Z_succ. ring.
Qed.

Lemma series_total_app (a b : Series) :
  series_total (a ++ b) == series_total a + series_total b.
Proof.
  unfold series_total. induction a as [|x a IH]; cbn [app foldr].
  - ring.
  - rewrite IH. ring.
Qed.

Lemma loan_payments_run_shape (cfg : Settings) (sb : Sidebar)
    (home_loan : Loan) :
  (0 <= sb_term sb <= time_frame cfg)%Z ->
  loan_payments_run cfg sb home_loan
  = deposit_amt sb
    :: replicate (Z.to_nat (sb_term sb)) (monthly_payment home_loan * 12)
    ++ replicate (Z.to_nat (time_frame cfg) - Z.to_nat (sb_term sb)) 0.
Proof.
  intros Hterm. apply list_eq. intros i.
  destruct (decide (i <= Z.to_nat (time_frame cfg))%nat) as [Hi|Hi].
  - rewrite lookup_loan_payments by (lia || done).
    destruct i as [|i]; [reflexivity|].
    change ((deposit_amt sb :: ?l) !! S i) with (l !! i).
    destruct (decide (Z.of_nat (S i) <= sb_term sb)%Z).
    + rewrite lookup_app_l by (rewrite length_replicate; lia).
      by rewrite lookup_replicate_2 by lia.
    + rewrite lookup_app_r by (rewrite length_replicate; lia).
      rewrite length_replicate. by rewrite lookup_replicate_2 by lia.
  - rewrite (lookup_ge_None_2 (loan_payments_run cfg sb home_loan))
      by (rewrite length_loan_payments; lia).
    symmetry. apply lookup_ge_None_2. cbn [length].
    rewrite length_app, !length_replicate. lia.
Qed.

(** X11: when the loan term lies within the horizon, the loan payments
    of all years add up to the deposit plus [termYears] times the
    yearly payment [monthlyPayment * 12]. *)
Theorem loan_payments_in_total (cfg : Settings) (Loan_ : LoanClass)
    (sb : Sidebar) (home_loan : Loan) :
  accepted cfg Loan_ sb home_loan ->
  (0 <= sb_term sb <= time_frame cfg)%Z ->
  exists out,
    main_with cfg Loan_ sb = Ok out
    /\ series_total (loan_payments out)
       == inject_Z (sb_house_price sb) * (inject_Z (sb_deposit_pct sb) / 100)
          + inject_Z (sb_term sb) * (monthly_payment home_loan * 12).
Proof.
  intros Hacc Hterm.
  destruct (accepted_run _ _ _ _ Hacc) as (bal & renting & Hrun & _).
  eexists. split; [exact Hrun|]. cbn [loan_payments].
  rewrite loan_payments_run_shape by done.
  change (series_total (?x :: ?l)) with (x + series_total l).
  rewrite series_total_app, !series_total_replicate.
  rewrite Z2Nat.id by lia. unfold deposit_amt. ring.
Qed.

(** ** The further properties at sample inputs *)

Lemma short_run_IndexError :
  main_with short_settings computeSchedule default_sidebar = Raise IndexError.
Proof.
  apply (main_with_IndexError _ _ _ default_loan).
  - by vm_compute.
  - apply computeSchedule_accepts.
    + by vm_compute.
    + apply effective_rate_nonneg. by vm_compute.
    + by vm_compute.
  - by vm_compute.
  - apply amortized_ready.
Qed.

Lemma dear_rent_accepted :
  accepted default_settings interest_free dear_rent_sidebar
    (amortized (loan_principal dear_rent_sidebar) 0
               (sb_term dear_rent_sidebar)).
Proof.
  unfold accepted. split; [by vm_compute|]. split; [|split].
  - unfold interest_free. apply computeSchedule_accepts; by vm_compute.
  - by vm_compute.
  - apply amortized_ready.
Qed.

Lemma daily_compounding_bounds_witness :
  0 <= sb_home_loan_rate default_sidebar
  /\ 0 < sb_home_loan_rate default_sidebar
  /\ 1 <= sb_home_loan_rate default_sidebar <= 10
  /\ sb_home_loan_rate default_sidebar / 100
     <= (read_loan_inputs default_sidebar).2
  /\ sb_home_loan_rate default_sidebar / 100
     < (read_loan_inputs default_sidebar).2
  /\ (read_loan_inputs default_sidebar).2 < 1052 # 10000.
Proof.
  assert (H0 : 0 <= sb_home_loan_rate default_sidebar) by (by vm_compute).
  assert (H1 : 0 < sb_home_loan_rate default_sidebar) by reflexivity.
  assert (H2 : 1 <= sb_home_loan_rate default_sidebar <= 10)
    by (split; by vm_compute).
  split; [exact H0|]. split; [exact H1|]. split; [exact H2|].
  split; [|split].
  - exact (proj1 (daily_compounding_bounds default_sidebar) H0).
  - exact (proj1 (proj2 (daily_compounding_bounds default_sidebar)) H1).
  - exact (proj2 (proj2 (daily_compounding_bounds default_sidebar)) H2).
Defined.

Lemma principal_within_price_witness :
  valid_sidebar default_sidebar = true
  /\ 0 <= loan_principal default_sidebar
     <= inject_Z (sb_house_price default_sidebar)
  /\ (loan_principal default_sidebar == 0
      <-> sb_deposit_pct default_sidebar = 100%Z).
Proof.
  split; [reflexivity|].
  exact (principal_within_price default_sidebar eq_refl).
Defined.

Lemma main_within_widget_bounds_witness :
  valid_sidebar default_sidebar = true
  /\ ((exists out,
         main computeSchedule default_sidebar = Ok out /\ all_lengths out 51)
      \/ (exists e,
            computeSchedule (loan_principal default_sidebar)
              (effective_rate default_sidebar) (sb_term default_sidebar)
            = Raise e
            /\ main computeSchedule default_sidebar = Raise e)
      \/ (exists home_loan y e,
            computeSchedule (loan_principal default_sidebar)
              (effective_rate default_sidebar) (sb_term default_sidebar)
            = Ok home_loan
            /\ (0 <= y < sb_term default_sidebar)%Z
            /\ schedule home_loan (12 * y + 1)%Z = Raise e
            /\ main computeSchedule default_sidebar = Raise e)).
Proof.
  split; [reflexivity|].
  exact (main_within_widget_bounds computeSchedule default_sidebar eq_refl).
Defined.

Lemma main_with_failures_witness :
  (0 <= time_frame short_settings)%Z
  /\ main_with short_settings computeSchedule default_sidebar
     = Raise IndexError
  /\ (computeSchedule (loan_principal default_sidebar)
        (effective_rate default_sidebar) (sb_term default_sidebar)
      = Raise IndexError
      \/ exists home_loan,
           computeSchedule (loan_principal default_sidebar)
             (effective_rate default_sidebar) (sb_term default_sidebar)
           = Ok home_loan
           /\ ((exists y, (0 <= y < sb_term default_sidebar)%Z
                          /\ schedule home_loan (12 * y + 1)%Z
                             = Raise IndexError)
               \/ (IndexError = IndexError
                   /\ (time_frame short_settings + 1
                       < sb_term default_sidebar)%Z))).
Proof.
  assert (Hframe : (0 <= time_frame short_settings)%Z) by (by vm_compute).
  split; [exact Hframe|]. split; [exact short_run_IndexError|].
  exact (main_with_failures short_settings computeSchedule default_sidebar
           IndexError Hframe short_run_IndexError).
Defined.

Lemma rent_costs_never_fall_witness :
  accepted default_settings computeSchedule default_sidebar default_loan
  /\ 0 <= rent_inflation default_settings
  /\ (0 <= sb_weekly_rent default_sidebar)%Z
  /\ exists out,
       main_with default_settings computeSchedule default_sidebar = Ok out
       /\ forall y1 y2, (0 <= y1 <= y2)%Z ->
            (y2 <= time_frame default_settings)%Z ->
            exists x1 x2,
              rent_costs out !! Z.to_nat y1 = Some x1
              /\ rent_costs out !! Z.to_nat y2 = Some x2
              /\ x1 <= x2
              /\ (x1 == max_rent default_settings ->
                  x2 == max_rent default_settings).
Proof.
  assert (H1 : 0 <= rent_inflation default_settings) by (by vm_compute).
  assert (H2 : (0 <= sb_weekly_rent default_sidebar)%Z) by (by vm_compute).
  split; [exact default_accepted|]. split; [exact H1|]. split; [exact H2|].
  exact (rent_costs_never_fall default_settings computeSchedule
           default_sidebar default_loan default_accepted H1 H2).
Defined.

Lemma asset_values_renting_as_sum_witness :
  accepted default_settings computeSchedule default_sidebar default_loan
  /\ exists out,
       main_with default_settings computeSchedule default_sidebar = Ok out
       /\ forall y : nat, (Z.of_nat y <= time_frame default_settings)%Z ->
            exists v,
              asset_values_renting out !! y = Some v
              /\ v == sum_upto
                        (fun k => entry (savings_rent_vs_buy out) k
                                  * (1 + portfolio_return_of default_settings
                                           default_sidebar)
                                    ^ Z.of_nat (y - k)) y.
Proof.
  split; [exact default_accepted|].
  exact (asset_values_renting_as_sum default_settings computeSchedule
           default_sidebar default_loan default_accepted).
Defined.

Lemma wealth_difference_at_horizon_witness :
  accepted default_settings computeSchedule default_sidebar default_loan
  /\ (sb_term default_sidebar <= time_frame default_settings)%Z
  /\ exists out w,
       main_with default_settings computeSchedule default_sidebar = Ok out
       /\ wealth_difference out = Ok w
       /\ w == inject_Z (sb_house_price default_sidebar)
               * (1 + property_return_of default_settings default_sidebar)
                 ^ time_frame default_settings
               - sum_upto
                   (fun k =>
                      entry (savings_rent_vs_buy out) k
                      * (1 + portfolio_return_of default_settings
                               default_sidebar)
                        ^ Z.of_nat
                            (Z.to_nat (time_frame default_settings) - k))
                   (Z.to_nat (time_frame default_settings)).
Proof.
  assert (Hterm : (sb_term default_sidebar <= time_frame default_settings)%Z)
    by (by vm_compute).
  split; [exact default_accepted|]. split; [exact Hterm|].
  exact (wealth_difference_at_horizon default_settings computeSchedule
           default_sidebar default_loan default_accepted Hterm).
Defined.

Lemma last_year_with_savings_spec_witness :
  last_year_with_savings sample_projection = Ok 2%Z
  /\ (0 <= 2)%Z
  /\ exists x,
       savings_rent_vs_buy sample_projection !! Z.to_nat 2 = Some x
       /\ 0 < x
       /\ forall j x', (Z.to_nat 2 < j)%nat ->
            savings_rent_vs_buy sample_projection !! j = Some x' -> x' <= 0.
Proof.
  assert (Hlast : last_year_with_savings sample_projection = Ok 2%Z)
    by reflexivity.
  split; [exact Hlast|].
  exact (proj1 (proj2 (last_year_with_savings_spec sample_projection))
           2%Z Hlast).
Defined.

Lemma report_with_deposit_witness :
  accepted default_settings computeSchedule default_sidebar default_loan
  /\ 0 <= max_rent default_settings
  /\ (0 < sb_house_price default_sidebar)%Z
  /\ (0 < sb_deposit_pct default_sidebar)%Z
  /\ exists years difference,
       report_with default_settings computeSchedule default_sidebar
       = Ok (years, difference)
       /\ (0 <= years <= time_frame default_settings)%Z.
Proof.
  assert (H1 : 0 <= max_rent default_settings) by (by vm_compute).
  assert (H2 : (0 < sb_house_price default_sidebar)%Z) by reflexivity.
  assert (H3 : (0 < sb_deposit_pct default_sidebar)%Z) by reflexivity.
  split; [exact default_accepted|]. split; [exact H1|]. split; [exact H2|].
  split; [exact H3|].
  exact (report_with_deposit default_settings computeSchedule
           default_sidebar default_loan default_accepted H1 H2 H3).
Defined.

Lemma report_without_savings_witness :
  valid_sidebar dear_rent_sidebar = true
  /\ accepted default_settings interest_free dear_rent_sidebar
       (amortized (loan_principal dear_rent_sidebar) 0
                  (sb_term dear_rent_sidebar))
  /\ exists out,
       main_with default_settings interest_free dear_rent_sidebar = Ok out
       /\ last_year_with_savings out = Raise IndexError
       /\ report_with default_settings interest_free dear_rent_sidebar
          = Raise IndexError.
Proof.
  split; [reflexivity|]. split; [exact dear_rent_accepted|].
  apply (report_without_savings default_settings interest_free
           dear_rent_sidebar _ dear_rent_accepted); by vm_compute.
Defined.

Lemma loan_payments_in_total_witness :
  accepted default_settings computeSchedule default_sidebar default_loan
  /\ (0 <= sb_term default_sidebar <= time_frame default_settings)%Z
  /\ exists out,
       main_with default_settings computeSchedule default_sidebar = Ok out
       /\ series_total (loan_payments out)
          == inject_Z (sb_house_price default_sidebar)
             * (inject_Z (sb_deposit_pct default_sidebar) / 100)
             + inject_Z (sb_term default_sidebar)
               * (monthly_payment default_loan * 12).
Proof.
  assert (Hterm : (0 <= sb_term default_sidebar
                   <= time_frame default_settings)%Z)
    by (split; by vm_compute).
  split; [exact default_accepted|]. split; [exact Hterm|].
  exact (loan_payments_in_total default_settings computeSchedule
           default_sidebar default_loan default_accepted Hterm).
Defined.
